(** * stockanalysis: the Streamlit report script [app.py]

    A shallow embedding of the script that renders the report of a
    financial asset (equity or cryptocurrency), and the properties of its
    display pipeline.

    The script is one straight-line program.  It is embedded as a
    computation in a writer/exception monad: the events it emits are the
    elements it renders and the helper functions it calls, in order; an
    exception ends the computation that raised it and is caught by the
    [try ... except Exception] of the script.

    Text is modelled as byte strings: a [str] is the sequence of the bytes
    of its UTF-8 encoding.  A [for] loop over a [str] visits its characters
    (code points); [title()] is computed on ASCII text and left symbolic on
    other text. *)

From Stdlib Require Import ZArith String Ascii List DecimalString Lia.
From Stdlib Require Import Floats.SpecFloat.
From stdpp Require Import base option list gmap strings fin_maps sorting.

#[local] Set Warnings "-register-all".
Local Open Scope string_scope.
Local Open Scope list_scope.
Local Open Scope Z_scope.

(** ** Python values *)

(** The values the helper functions put into the dictionaries the script
    reads.  A [float] is an IEEE 754 binary64 number. *)
Inductive PyVal : Type :=
| VNone
| VBool (b : bool)
| VInt (z : Z)
| VFloat (f : spec_float)
| VStr (s : string)
| VList (l : list PyVal).

(** A [dict] with string keys. *)
Abbreviation dict := (gmap string PyVal).

Inductive Exn : Type :=
| TypeError
| ValueError
| AttributeError
| OverflowError
| HelperError (msg : string).

(** The outcome of an expression that can raise. *)
Inductive result (A : Type) : Type :=
| Ok (a : A)
| Raise (e : Exn).
Arguments Ok {A} a.
Arguments Raise {A} e.

#[global] Instance result_ret : MRet result := fun A a => Ok a.
#[global] Instance result_bind : MBind result := fun A B f r =>
  match r with
  | Ok a => f a
  | Raise e => Raise e
  end.

Definition is_ok {A} (r : result A) : bool :=
  match r with Ok _ => true | Raise _ => false end.

(** [d.get(k, v)] and [d.get(k)]. *)
Definition dict_get (d : dict) (k : string) (v : PyVal) : PyVal :=
  default v (d !! k).
Definition dict_get_none (d : dict) (k : string) : PyVal :=
  dict_get d k VNone.

(** *** binary64 arithmetic *)

Definition prec : Z := 53.
Definition emax : Z := 1024.

(** The binary64 number nearest to [m * 2^e]. *)
Definition canon (f : spec_float) : spec_float :=
  match f with
  | S754_finite s m e =>
      binary_normalize prec emax (if s then Z.neg m else Z.pos m) e s
  | _ => f
  end.

(** [float(z)] raises [OverflowError] when [z] is out of range. *)
Definition float_of_int (z : Z) : result spec_float :=
  match binary_normalize prec emax z 0 false with
  | S754_infinity _ => Raise OverflowError
  | f => Ok f
  end.

Definition float_100 : spec_float := S754_finite false 7036874417766400 (-46).

Definition float_is_zero (f : spec_float) : bool :=
  match f with S754_zero _ => true | _ => false end.

(** *** Truth value, [*], [str()] and [format()] *)

(** [bool(v)], what [if v] and [v and ...] test. *)
Definition truthy (v : PyVal) : bool :=
  match v with
  | VNone => false
  | VBool b => b
  | VInt z => negb (z =? 0)
  | VFloat f => negb (float_is_zero f)
  | VStr s => negb (String.eqb s "")
  | VList l => match l with [] => false | _ => true end
  end.

Definition str_truthy (s : string) : bool := negb (String.eqb s "").

Fixpoint str_repeat (s : string) (n : nat) : string :=
  match n with
  | O => ""
  | S n => s +:+ str_repeat s n
  end.

(** [v * 100] *)
Definition py_mul_100 (v : PyVal) : result PyVal :=
  match v with
  | VNone => Raise TypeError
  | VBool b => Ok (VInt (if b then 100 else 0))
  | VInt z => Ok (VInt (z * 100))
  | VFloat f => Ok (VFloat (SFmul prec emax (canon f) float_100))
  | VStr s => Ok (VStr (str_repeat s 100))
  | VList l => Ok (VList (mjoin (replicate 100 l)))
  end.

Definition dec (z : Z) : string := NilZero.string_of_int (Z.to_int z).

(** Rounding of [n / d] to an integer, ties to even ([0 <= n], [0 < d]). *)
Definition round_half_even (n d : Z) : Z :=
  let q := n / d in
  let r := n mod d in
  if 2 * r <? d then q
  else if d <? 2 * r then q + 1
  else if Z.even q then q else q + 1.

(** The hundredths of [m * 2^e], correctly rounded. *)
Definition cents (m : positive) (e : Z) : Z :=
  if 0 <=? e then Z.pos m * 2 ^ e * 100
  else round_half_even (Z.pos m * 100) (2 ^ (- e)).

Definition sign_text (plus neg : bool) : string :=
  if neg then "-" else if plus then "+" else "".

Definition fixed2 (c : Z) : string :=
  dec (c / 100) +:+ "." +:+
  (if c mod 100 <? 10 then "0" +:+ dec (c mod 100) else dec (c mod 100)).

(** [format(f, '.2f')], and [format(f, '+.2f')] when [plus]. *)
Definition float_format_2f (plus : bool) (f : spec_float) : string :=
  match f with
  | S754_nan => sign_text plus false +:+ "nan"
  | S754_infinity s => sign_text plus s +:+ "inf"
  | S754_zero s => sign_text plus s +:+ fixed2 0
  | S754_finite s m e => sign_text plus s +:+ fixed2 (cents m e)
  end.

(** [format(v, '.2f')]: an [int] or a [bool] is converted to [float]; a
    [str] rejects the format code, the other types reject any format. *)
Definition py_format_2f (plus : bool) (v : PyVal) : result string :=
  match v with
  | VNone => Raise TypeError
  | VBool b => f ← float_of_int (if b then 1 else 0); Ok (float_format_2f plus f)
  | VInt z => f ← float_of_int z; Ok (float_format_2f plus f)
  | VFloat f => Ok (float_format_2f plus (canon f))
  | VStr _ => Raise ValueError
  | VList _ => Raise TypeError
  end.

(** CPython refuses to convert to text an [int] of more than 4300 digits
    ([sys.int_max_str_digits]): [str], [repr] and the f-strings raise
    [ValueError] on it. *)
Definition int_max_str_digits : nat := 4300.

Definition int_str_ok (z : Z) : bool :=
  (String.length (dec (Z.abs z)) <=? int_max_str_digits)%nat.

(** [str(v)] returns: every [int] in [v] is within the limit. *)
Fixpoint str_ok (v : PyVal) : bool :=
  match v with
  | VInt z => int_str_ok z
  | VList l => forallb str_ok l
  | _ => true
  end.

(** Formatted text.  [str()] of a [float] or of a [list], and [title()] of
    text that is not ASCII, are left symbolic. *)
Inductive Piece : Type :=
| Lit (s : string)
| StrOf (v : PyVal)
| StrExn (e : Exn)
| TitleOf (s : string).

Abbreviation Text := (list Piece).

Definition str_piece (v : PyVal) : Piece :=
  match v with
  | VNone => Lit "None"
  | VBool b => Lit (if b then "True" else "False")
  | VInt z => Lit (dec z)
  | VStr s => Lit s
  | _ => StrOf v
  end.

(** [str(v)], as a piece of text. *)
Definition py_str (v : PyVal) : result Piece :=
  if str_ok v then Ok (str_piece v) else Raise ValueError.

(** Adjacent literal pieces are one literal. *)
Fixpoint fstr (ps : list Piece) : Text :=
  match ps with
  | [] => []
  | Lit s :: ps =>
      match fstr ps with
      | Lit s' :: t => Lit (s +:+ s') :: t
      | t => Lit s :: t
      end
  | p :: ps => p :: fstr ps
  end.

(** The parts of an f-string: literal text and [{v}]. *)
Inductive Part : Type :=
| PLit (s : string)
| PVal (v : PyVal).

Fixpoint fstring_pieces (parts : list Part) : result (list Piece) :=
  match parts with
  | [] => Ok []
  | PLit s :: parts => ps ← fstring_pieces parts; Ok (Lit s :: ps)
  | PVal v :: parts => p ← py_str v; ps ← fstring_pieces parts; Ok (p :: ps)
  end.

(** An f-string; it raises when one of its values has no text. *)
Definition fstring (parts : list Part) : result Text :=
  ps ← fstring_pieces parts; Ok (fstr ps).

(** ** Strings *)

Definition is_lower (c : ascii) : bool :=
  let n := nat_of_ascii c in (97 <=? n)%nat && (n <=? 122)%nat.
Definition is_upper (c : ascii) : bool :=
  let n := nat_of_ascii c in (65 <=? n)%nat && (n <=? 90)%nat.
Definition to_upper (c : ascii) : ascii :=
  if is_lower c then ascii_of_nat (nat_of_ascii c - 32) else c.
Definition to_lower (c : ascii) : ascii :=
  if is_upper c then ascii_of_nat (nat_of_ascii c + 32) else c.

(** [s.upper()] *)
Fixpoint upper (s : string) : string :=
  match s with
  | EmptyString => EmptyString
  | String c s => String (to_upper c) (upper s)
  end.

(** [s.title()]: a letter that follows a letter is lowered, any other
    letter is raised. *)
Fixpoint title_from (prev_cased : bool) (s : string) : string :=
  match s with
  | EmptyString => EmptyString
  | String c s =>
      let cased := is_lower c || is_upper c in
      String (if prev_cased then to_lower c else to_upper c) (title_from cased s)
  end.
Definition title (s : string) : string := title_from false s.

(** [sub in s] *)
Fixpoint str_contains (sub s : string) : bool :=
  String.prefix sub s ||
  match s with
  | EmptyString => false
  | String _ s => str_contains sub s
  end.

(** [sep.join(v)] *)
Fixpoint join_strs (sep : string) (l : list string) : string :=
  match l with
  | [] => ""
  | [s] => s
  | s :: l => s +:+ sep +:+ join_strs sep l
  end.

(** The bytes [10xxxxxx] continue a character of UTF-8 text. *)
Definition is_continuation (c : ascii) : bool :=
  let n := nat_of_ascii c in (128 <=? n)%nat && (n <=? 191)%nat.

(** The characters after the one whose first bytes are [cur]. *)
Fixpoint chars_from (cur : string) (s : string) : list string :=
  match s with
  | EmptyString => [cur]
  | String c s =>
      if is_continuation c then chars_from (cur +:+ String c EmptyString) s
      else cur :: chars_from (String c EmptyString) s
  end.

(** The characters of a text, each with all its bytes. *)
Definition chars (s : string) : list string :=
  match s with
  | EmptyString => []
  | String c s => chars_from (String c EmptyString) s
  end.

(** [iter(v)]: the items a [for] loop visits. *)
Definition py_iter (v : PyVal) : result (list PyVal) :=
  match v with
  | VList l => Ok l
  | VStr s => Ok (VStr <$> chars s)
  | _ => Raise TypeError
  end.

Definition as_str (v : PyVal) : result string :=
  match v with
  | VStr s => Ok s
  | _ => Raise TypeError
  end.

Definition py_join (sep : string) (v : PyVal) : result string :=
  items ← py_iter v;
  strs ← mapM as_str items;
  Ok (join_strs sep strs).

Definition is_ascii (s : string) : bool :=
  forallb (fun c => (nat_of_ascii c <? 128)%nat) (String.list_ascii_of_string s).

(** [v.title()] *)
Definition py_title (v : PyVal) : result Piece :=
  match v with
  | VStr s => Ok (if is_ascii s then Lit (title s) else TitleOf s)
  | _ => Raise AttributeError
  end.

(** [v == s] for a string literal [s]. *)
Definition py_eq_str (v : PyVal) (s : string) : bool :=
  match v with
  | VStr s' => String.eqb s' s
  | _ => false
  end.

(** [bool(d)] for what a fetch returned: [None] and the empty [dict] are
    false. *)
Definition dict_truthy (d : option dict) : bool :=
  match d with
  | Some d => negb (bool_decide (d = ∅))
  | None => false
  end.

Definition list_truthy {A} (l : list A) : bool :=
  match l with [] => false | _ => true end.

(** ** Price series *)

Record Bar : Type := {
  bar_date : Z;
  bar_open : spec_float;
  bar_high : spec_float;
  bar_low : spec_float;
  bar_close : spec_float;
  bar_volume : Z
}.

(** The rows of the price [DataFrame], oldest first. *)
Abbreviation DataFrame := (list Bar).

(** [df.tail(n)] *)
Definition tail (n : nat) (df : DataFrame) : DataFrame :=
  drop (length df - n) df.

(** Lines 85-88: the rows that are charted. *)
Definition display_data (stock_data : DataFrame) : DataFrame :=
  if (252 <? length stock_data)%nat then tail 252 stock_data else stock_data.

(** Lines 99, 139, 185, 193, 209, 226. *)
Definition is_crypto (stock_symbol : string) : bool :=
  str_contains "-" (upper stock_symbol).

(** ** Rendered elements and helper calls *)

(** What the plotting helper returns: opaque to the script. *)
Record Figure : Type := { fig_rows : DataFrame }.

Inductive Widget : Type :=
| WPageConfig (page_title layout : string)
| WTitle (s : string)
| WMarkdown (t : Text)
| WHtml (t : Text)
| WWrite (args : list PyVal)
| WSubheader (s : string)
| WPlotlyChart (fig : Figure)
| WSuccess (t : Text)
| WError (t : Text)
| WInfo (t : Text)
| WWarning (t : Text)
| WMetric (label : string) (v : PyVal)
| WExpander (label : Text) (expanded : bool)
| WSpinner (s : string)
| WTabs (labels : list string)
| WColumns (n : nat)
| WTextInput (label : string)
| WSubmit (label : string).

Inductive Container : Type :=
| CTab (i : nat)
| CCol (i : nat)
| CExpander (label : Text)
| CForm (key : string).

Inductive Call : Type :=
| CGetStockData (symbol period : string)
| CGetCompanyInfo (symbol : string)
| CGetFinancialMetrics (symbol : string)
| CGetNews (symbol : string) (max_articles : nat)
| CGenerateStockAnalysis (symbol : string) (stock_data : DataFrame)
    (company_info financial_metrics : option dict) (news_articles : list dict)
| CPlotStockChart (data : DataFrame)
| CSummarize (news_articles : list dict).

Inductive Event : Type :=
| Render (path : list Container) (w : Widget)
| Invoke (c : Call).

(** The helper modules of the repository, as the script sees them: each
    call returns or raises.  The news helper is called twice in a request;
    its first argument here is the number of the call. *)
Record Env : Type := {
  get_stock_data : string → string → result (option DataFrame);
  get_company_info : string → result (option dict);
  get_financial_metrics : string → result (option dict);
  get_news_for_asset : nat → string → nat → result (list dict);
  generate_stock_analysis :
    string → DataFrame → option dict → option dict → list dict → result dict;
  plot_stock_chart : DataFrame → result Figure;
  summarize_news_sentiment : list dict → result dict
}.

(** ** The monad of the script *)

Definition M (A : Type) : Type := list Event * result A.

#[global] Instance M_ret : MRet M := fun A a => ([], Ok a).
#[global] Instance M_bind : MBind M := fun A B f m =>
  match m with
  | (t, Ok a) => let '(t', r) := f a in (t ++ t', r)
  | (t, Raise e) => (t, Raise e)
  end.

Definition emit (w : Widget) : M unit := ([Render [] w], Ok tt).
Definition call {A} (c : Call) (r : result A) : M A := ([Invoke c], r).
Definition lift {A} (r : result A) : M A := ([], r).

Definition enter (c : Container) (e : Event) : Event :=
  match e with
  | Render path w => Render (c :: path) w
  | Invoke _ => e
  end.

(** [with c:] *)
Definition within {A} (c : Container) (m : M A) : M A :=
  (enter c <$> m.1, m.2).

(** [for x in l:] *)
Fixpoint for_each {A} (l : list A) (body : A → M unit) : M unit :=
  match l with
  | [] => mret tt
  | x :: l => body x;; for_each l body
  end.

(** [for i, x in enumerate(l):], counting from [i]. *)
Fixpoint for_enumerate {A} (i : Z) (l : list A) (body : Z → A → M unit) : M unit :=
  match l with
  | [] => mret tt
  | x :: l => body i x;; for_enumerate (i + 1) l body
  end.

Definition text (s : string) : Text := [Lit s].

Definition exn_piece (e : Exn) : Piece :=
  match e with
  | HelperError msg => Lit msg
  | _ => StrExn e
  end.

(** [if d: a(d) else: b] for what a fetch returned. *)
Definition if_dict {A} (d : option dict) (a : dict → A) (b : A) : A :=
  match d with
  | Some d' => if bool_decide (d' = ∅) then b else a d'
  | None => b
  end.

Definition raise {A} (e : Exn) : M A := ([], Raise e).

(** [st.write] turns its arguments into elements one after the
    other: a list is displayed at once, after the texts gathered before it;
    any other value is turned to text and gathered.  The result is what
    has been displayed of [args] ([shown] and then [buffer]) and whether
    an argument without text ended the call. *)
Fixpoint write_args (shown buffer args : list PyVal) : list PyVal * result unit :=
  match args with
  | [] => (shown ++ buffer, Ok tt)
  | VList l :: args =>
      if str_ok (VList l) then write_args (shown ++ buffer ++ [VList l]) [] args
      else (shown ++ buffer, Raise ValueError)
  | v :: args =>
      if str_ok v then write_args shown (buffer ++ [v]) args
      else (shown, Raise ValueError)
  end.

(** [st.write] with the arguments [args]. *)
Definition write (args : list PyVal) : M unit :=
  let '(shown, r) := write_args [] [] args in
  (match shown with [] => [] | _ => [Render [] (WWrite shown)] end, r).

Definition write2 (label : string) (v : PyVal) : M unit :=
  write [VStr label; v].

(** The values [st.metric] accepts: [None], [int], [float], [str]; it
    turns the number to text. *)
Definition metric_value (v : PyVal) : result unit :=
  match v with
  | VList _ => Raise TypeError
  | VInt z => if int_str_ok z then Ok tt else Raise ValueError
  | _ => Ok tt
  end.

(** [st.metric(label, v)] *)
Definition metric (label : string) (v : PyVal) : M unit :=
  lift (metric_value v);; emit (WMetric label v).

(** An element whose text is an f-string. *)
Definition emit_f (w : Text → Widget) (parts : list Part) : M unit :=
  t ← lift (fstring parts); emit (w t).

(** ** The script, section by section *)

(** Lines 113-136: the recommendation, as returned by the engine. *)
Definition show_recommendation (analysis_result : dict) : M unit :=
  let recommendation := dict_get analysis_result "recommendation" (VStr "NEUTRAL") in
  (if py_eq_str recommendation "BUY" then
     emit_f WSuccess [PLit "## Recommendation: "; PVal recommendation; PLit " 📈"]
   else if py_eq_str recommendation "SELL" then
     emit_f WError [PLit "## Recommendation: "; PVal recommendation; PLit " 📉"]
   else
     emit_f WInfo [PLit "## Recommendation: "; PVal recommendation; PLit " ⚖️"]);;
  emit (WMarkdown (text "### Analysis Summary"));;
  write [dict_get analysis_result "summary" (VStr "No summary available")];;
  emit (WMarkdown (text "### Risk Factors"));;
  let risk_factors := dict_get analysis_result "risk_factors" (VList []) in
  factors ← lift (py_iter risk_factors);
  for_each factors (fun factor =>
    emit_f WMarkdown [PLit "- "; PVal factor]);;
  emit (WExpander (text "Detailed Analysis") false);;
  within (CExpander (text "Detailed Analysis"))
    (write [dict_get analysis_result "detailed_analysis"
              (VStr "No detailed analysis available")]).

(** Lines 92-136.  The metadata and the metrics fetched here are the ones
    the next two tabs show. *)
Definition tab1 (env : Env) (stock_symbol : string) (stock_data display : DataFrame)
  : M (option dict * option dict) :=
  emit (WSubheader (stock_symbol +:+ " Price Chart"));;
  fig ← call (CPlotStockChart display) (plot_stock_chart env display);
  emit (WPlotlyChart fig);;
  let asset_type := if is_crypto stock_symbol then "Cryptocurrency" else "Stock" in
  emit (WSubheader ("Gemini AI " +:+ asset_type +:+ " Analysis"));;
  company_info ← call (CGetCompanyInfo stock_symbol) (get_company_info env stock_symbol);
  financial_metrics ←
    call (CGetFinancialMetrics stock_symbol) (get_financial_metrics env stock_symbol);
  news_articles ←
    call (CGetNews stock_symbol 5) (get_news_for_asset env 0 stock_symbol 5);
  analysis_result ←
    call (CGenerateStockAnalysis stock_symbol stock_data company_info
            financial_metrics news_articles)
         (generate_stock_analysis env stock_symbol stock_data company_info
            financial_metrics news_articles);
  show_recommendation analysis_result;;
  mret (company_info, financial_metrics).

(** Lines 141-160. *)
Definition crypto_info (stock_symbol : string) (company_info : option dict) : M unit :=
  emit (WSubheader ("About " +:+ stock_symbol));;
  if_dict company_info (fun company_info =>
    emit (WColumns 2);;
    within (CCol 1) (
      write2 "**Name:**" (dict_get company_info "longName" (VStr stock_symbol));;
      write2 "**Category:**" (VStr "Cryptocurrency");;
      write2 "**Symbol:**" (VStr stock_symbol);;
      write2 "**Market:**" (VStr "Cryptocurrency"));;
    within (CCol 2) (
      write2 "**Market Cap:**" (dict_get company_info "marketCap" (VStr "N/A"));;
      write2 "**Volume (24h):**" (dict_get company_info "volume24Hr" (VStr "N/A"));;
      write2 "**Circulating Supply:**"
        (dict_get company_info "circulatingSupply" (VStr "N/A")));;
    emit (WMarkdown (text "### Description"));;
    write [dict_get company_info "description"
             (dict_get company_info "longBusinessSummary"
                (VStr "No description available"))])
  (emit (WWarning (text "Cryptocurrency information not available"))).

(** Lines 162-182. *)
Definition company_information (stock_symbol : string) (company_info : option dict)
  : M unit :=
  emit (WSubheader ("About " +:+ stock_symbol));;
  if_dict company_info (fun company_info =>
    emit (WColumns 2);;
    within (CCol 1) (
      write2 "**Company Name:**" (dict_get company_info "longName" (VStr "N/A"));;
      write2 "**Sector:**" (dict_get company_info "sector" (VStr "N/A"));;
      write2 "**Industry:**" (dict_get company_info "industry" (VStr "N/A"));;
      write2 "**Country:**" (dict_get company_info "country" (VStr "N/A"));;
      write2 "**Exchange:**" (dict_get company_info "exchange" (VStr "N/A")));;
    within (CCol 2) (
      write2 "**Market Cap:**" (dict_get company_info "marketCap" (VStr "N/A"));;
      write2 "**Employees:**" (dict_get company_info "fullTimeEmployees" (VStr "N/A"));;
      write2 "**Website:**" (dict_get company_info "website" (VStr "N/A")));;
    emit (WMarkdown (text "### Business Summary"));;
    write [dict_get company_info "longBusinessSummary"
             (VStr "No business summary available")])
  (emit (WWarning (text "Company information not available"))).

(** Lines 138-182. *)
Definition tab2 (stock_symbol : string) (company_info : option dict) : M unit :=
  if is_crypto stock_symbol then crypto_info stock_symbol company_info
  else company_information stock_symbol company_info.

(** [f"{d.get(k, 0) * 100:.2f}%" if d.get(k) else "N/A"] *)
Definition pct_if_truthy (d : dict) (k : string) : result PyVal :=
  if truthy (dict_get_none d k) then
    x ← py_mul_100 (dict_get d k (VInt 0));
    s ← py_format_2f false x;
    Ok (VStr (s +:+ "%"))
  else Ok (VStr "N/A").

Definition is_not_none (v : PyVal) : bool :=
  match v with VNone => false | _ => true end.

(** [f"{d.get(k, 0) * 100:.2f}%" if d.get(k) is not None else "N/A"] *)
Definition pct_if_not_none (d : dict) (k : string) : result PyVal :=
  if is_not_none (dict_get_none d k) then
    x ← py_mul_100 (dict_get d k (VInt 0));
    s ← py_format_2f false x;
    Ok (VStr (s +:+ "%"))
  else Ok (VStr "N/A").

Definition more_metrics : Text := text "More Financial Metrics".

(** Lines 198-201. *)
Definition crypto_col1 (fm : dict) : M unit :=
  change ← lift (pct_if_truthy fm "regularMarketChangePercent");
  metric "24h Change" change;;
  metric "24h Volume" (dict_get fm "volume24Hr" (dict_get fm "volume" (VStr "N/A")));;
  metric "Market Cap" (dict_get fm "marketCap" (VStr "N/A"));;
  metric "Circulating Supply" (dict_get fm "circulatingSupply" (VStr "N/A")).

(** Lines 203-206. *)
Definition stock_col1 (fm : dict) : M unit :=
  metric "P/E Ratio" (dict_get fm "trailingPE" (VStr "N/A"));;
  dividend ← lift (pct_if_truthy fm "dividendYield");
  metric "Dividend Yield" dividend;;
  metric "52 Week High" (dict_get fm "fiftyTwoWeekHigh" (VStr "N/A"));;
  metric "52 Week Low" (dict_get fm "fiftyTwoWeekLow" (VStr "N/A")).

(** Lines 212-216. *)
Definition crypto_col2 (fm : dict) : M unit :=
  metric "All-Time High" (dict_get fm "fiftyTwoWeekHigh" (VStr "N/A"));;
  metric "All-Time Low" (dict_get fm "fiftyTwoWeekLow" (VStr "N/A"));;
  metric "Max Supply" (dict_get fm "maxSupply" (VStr "N/A"));;
  metric "Total Supply" (dict_get fm "totalSupply" (VStr "N/A"));;
  metric "Volume Ratio" (dict_get fm "averageDailyVolume10Day" (VStr "N/A")).

(** Lines 218-222. *)
Definition stock_col2 (fm : dict) : M unit :=
  metric "EPS" (dict_get fm "trailingEps" (VStr "N/A"));;
  metric "Price to Book" (dict_get fm "priceToBook" (VStr "N/A"));;
  roe ← lift (pct_if_truthy fm "returnOnEquity");
  metric "Return on Equity" roe;;
  margins ← lift (pct_if_truthy fm "profitMargins");
  metric "Profit Margins" margins;;
  metric "Debt to Equity" (dict_get fm "debtToEquity" (VStr "N/A")).

(** Lines 230-235. *)
Definition crypto_more (fm : dict) : M unit :=
  write2 "**Market Dominance:**" (dict_get fm "marketDominance" (VStr "N/A"));;
  write2 "**Trading Volume:**" (dict_get fm "volume" (VStr "N/A"));;
  write2 "**Avg Volume (3m):**" (dict_get fm "averageVolume3Months" (VStr "N/A"));;
  write2 "**Avg Volume (10d):**" (dict_get fm "averageDailyVolume10Day" (VStr "N/A"));;
  write2 "**Beta:**" (dict_get fm "beta" (VStr "N/A"));;
  write2 "**YTD Return:**" (dict_get fm "ytdReturn" (VStr "N/A")).

(** Lines 238-250. *)
Definition stock_more (fm : dict) : M unit :=
  revenueGrowth ← lift (pct_if_not_none fm "revenueGrowth");
  grossMargins ← lift (pct_if_not_none fm "grossMargins");
  operatingMargins ← lift (pct_if_not_none fm "operatingMargins");
  write2 "**Revenue Growth:**" revenueGrowth;;
  write2 "**Gross Margins:**" grossMargins;;
  write2 "**Operating Margins:**" operatingMargins;;
  write2 "**Quick Ratio:**" (dict_get fm "quickRatio" (VStr "N/A"));;
  write2 "**Current Ratio:**" (dict_get fm "currentRatio" (VStr "N/A"));;
  write2 "**Beta:**" (dict_get fm "beta" (VStr "N/A"));;
  write2 "**Shares Outstanding:**" (dict_get fm "sharesOutstanding" (VStr "N/A"));;
  write2 "**Book Value:**" (dict_get fm "bookValue" (VStr "N/A"));;
  write2 "**Target Mean Price:**" (dict_get fm "targetMeanPrice" (VStr "N/A")).

(** Lines 190-250: the asset kind is derived from the symbol anew in each
    column and in the expander. *)
Definition metrics (stock_symbol : string) (financial_metrics : dict) : M unit :=
  emit (WColumns 2);;
  within (CCol 1) (
    let is_crypto := is_crypto stock_symbol in
    metric "Current Price" (dict_get financial_metrics "currentPrice" (VStr "N/A"));;
    if is_crypto then crypto_col1 financial_metrics
    else stock_col1 financial_metrics);;
  within (CCol 2) (
    let is_crypto := is_crypto stock_symbol in
    if is_crypto then crypto_col2 financial_metrics
    else stock_col2 financial_metrics);;
  emit (WExpander more_metrics false);;
  within (CExpander more_metrics) (
    let is_crypto := is_crypto stock_symbol in
    if is_crypto then crypto_more financial_metrics
    else stock_more financial_metrics).

(** Lines 184-252. *)
Definition tab3 (stock_symbol : string) (financial_metrics : option dict) : M unit :=
  let is_crypto := is_crypto stock_symbol in
  let asset_type := if is_crypto then "Cryptocurrency" else "Financial" in
  emit (WSubheader (stock_symbol +:+ " " +:+ asset_type +:+ " Metrics"));;
  if_dict financial_metrics (metrics stock_symbol)
    (emit (WWarning (text "Financial metrics not available"))).

(** Lines 295-306. *)
Definition show_article (i : Z) (article : dict) : M unit :=
  let title := dict_get article "title" (VStr "No title") in
  let source := dict_get article "source" (VStr "Unknown") in
  let date := dict_get article "date" (VStr "Unknown date") in
  let url := dict_get article "url" (VStr "#") in
  let summary := dict_get article "summary" (VStr "No summary available") in
  label ← lift (fstring [PLit (dec (i + 1)); PLit ". "; PVal title; PLit " (";
                         PVal source; PLit ")"]);
  emit (WExpander label false);;
  within (CExpander label) (
    emit_f WMarkdown [PLit "**Date:** "; PVal date];;
    emit_f WMarkdown [PLit "**Source:** "; PVal source];;
    write [summary];;
    emit_f WMarkdown [PLit "[Read full article]("; PVal url; PLit ")"]).

(** Lines 263-306: the sentiment of the news, then the articles. *)
Definition show_news (env : Env) (news_articles : list dict) : M unit :=
  sentiment_results ←
    call (CSummarize news_articles) (summarize_news_sentiment env news_articles);
  let sentiment_score := dict_get sentiment_results "sentiment_score" (VInt 0) in
  let sentiment_trend := dict_get sentiment_results "trend" (VStr "neutral") in
  let sentiment_summary :=
    dict_get sentiment_results "summary" (VStr "No news analysis available") in
  emit (WMarkdown (text "### Market Sentiment"));;
  let sentiment_color :=
    if py_eq_str sentiment_trend "strongly positive" then "darkgreen"
    else if py_eq_str sentiment_trend "positive" then "green"
    else if py_eq_str sentiment_trend "strongly negative" then "darkred"
    else if py_eq_str sentiment_trend "negative" then "red"
    else "grey" in
  trend_title ← lift (py_title sentiment_trend);
  score ← lift (py_format_2f true sentiment_score);
  emit (WHtml (fstr [Lit "<h4 style='color: "; Lit sentiment_color;
                     Lit ";'>Sentiment: "; trend_title; Lit " ("; Lit score;
                     Lit ")</h4>"]));;
  write [sentiment_summary];;
  let key_topics := dict_get sentiment_results "key_topics" (VList []) in
  (if truthy key_topics then
     emit (WMarkdown (text "### Key Topics in News"));;
     topics ← lift (py_join ", " key_topics);
     write [VStr topics]
   else mret tt);;
  emit (WMarkdown (text "### Recent News Articles"));;
  for_enumerate 0 news_articles show_article.

(** Lines 254-309. *)
Definition tab4 (env : Env) (stock_symbol : string) : M unit :=
  emit (WSubheader (stock_symbol +:+ " News & Sentiment Analysis"));;
  emit (WSpinner "Fetching latest news...");;
  news_articles ←
    call (CGetNews stock_symbol 5) (get_news_for_asset env 1 stock_symbol 5);
  if list_truthy news_articles then show_news env news_articles
  else
    emit (WInfo (text ("No recent news found for " +:+ stock_symbol)));;
    write [VStr "Try a different symbol or check back later for updated news."].

Definition tab_labels : list string :=
  ["Analysis & Recommendation"; "Company Information"; "Financial Metrics";
   "News & Sentiment"].

(** Lines 79-311: the body of the [try]. *)
Definition analysis (env : Env) (stock_symbol : string) : M unit :=
  stock_data ←
    call (CGetStockData stock_symbol "max") (get_stock_data env stock_symbol "max");
  match stock_data with
  | Some stock_data =>
      let display := display_data stock_data in
      emit (WTabs tab_labels);;
      '(company_info, financial_metrics) ←
        within (CTab 1) (tab1 env stock_symbol stock_data display);
      within (CTab 2) (tab2 stock_symbol company_info);;
      within (CTab 3) (tab3 stock_symbol financial_metrics);;
      within (CTab 4) (tab4 env stock_symbol)
  | None =>
      emit (WError (text ("Could not retrieve data for " +:+ stock_symbol
                          +:+ ". Please check the symbol and try again.")))
  end.

(** Lines 313-315: [except Exception as e]. *)
Definition handler (e : Exn) : list Event :=
  [Render [] (WError (fstr [Lit "An error occurred: "; exn_piece e]));
   Render [] (WInfo (text "Please check if the stock symbol is correct. For IDX stocks, use the format 'IDX:SYMBOL' (e.g., IDX:ADRO)."))].

(** Lines 77-315: what a submitted analysis request renders and calls. *)
Definition analyze (env : Env) (stock_symbol : string) : list Event :=
  Render [] (WSpinner ("Analyzing " +:+ stock_symbol +:+ "...")) ::
  match analysis env stock_symbol with
  | (t, Ok _) => t
  | (t, Raise e) => t ++ handler e
  end.

(** ** The page *)

(** What one run of the script reads: the session state, and what the user
    has entered in the two forms. *)
Record Inputs : Type := {
  session_state : gmap string string;
  api_key_input : string;
  submitted : bool;
  stock_symbol : string;
  submit_button : bool
}.

Definition description : string :=
"
This application provides in-depth analysis for stocks and cryptocurrencies using Google's Gemini AI.
Enter a symbol to get buy/sell recommendations and detailed information:

**Stocks**:
- US Stocks: Enter the ticker symbol (e.g., AAPL, MSFT, GOOGL)
- Indonesian Stocks: Use IDX: prefix (e.g., IDX:BBCA, IDX:ADRO)

**Cryptocurrencies**:
- Enter the crypto symbol with USD suffix (e.g., BTC-USD, ETH-USD, SOL-USD)
".

(** Lines 37-38. *)
Definition init_session (ss : gmap string string) : gmap string string :=
  match ss !! "GEMINI_API_KEY" with
  | Some _ => ss
  | None => <["GEMINI_API_KEY" := ""]> ss
  end.

(** Lines 55-56: the key a submitted, non-empty input stores. *)
Definition save_key (i : Inputs) (ss : gmap string string) : gmap string string :=
  if submitted i && str_truthy (api_key_input i)
  then <["GEMINI_API_KEY" := api_key_input i]> ss
  else ss.

(** The session state the analysis request of this run is made under. *)
Definition session_of (i : Inputs) : gmap string string :=
  save_key i (init_session (session_state i)).

Definition stored_key (ss : gmap string string) : string :=
  default "" (ss !! "GEMINI_API_KEY").

Definition configure : Text := text "Configure Google Gemini API".

(** Lines 41-59. *)
Definition api_key_section (i : Inputs) : list Event :=
  let ss := init_session (session_state i) in
  [Render [] (WExpander configure (negb (str_truthy (stored_key ss))));
   Render [CExpander configure]
     (WWrite [VStr "To use the AI analysis features, you need to provide a Google Gemini API key."]);
   Render [CExpander configure; CForm "api_key_form"]
     (WTextInput "Enter your Google Gemini API key");
   Render [CExpander configure; CForm "api_key_form"] (WSubmit "Save API Key")]
  ++ (if submitted i && str_truthy (api_key_input i)
      then [Render [CExpander configure; CForm "api_key_form"]
              (WSuccess (text "API key saved successfully! You can now use AI analysis features."))]
      else [])
  ++ [Render [CExpander configure]
        (WInfo (text "Your API key is stored in your session only and will be cleared when you close the browser. It is not stored on our servers."))].

(** Lines 62-72. *)
Definition stock_form : list Event :=
  [Render [CForm "stock_form"] (WColumns 2);
   Render [CForm "stock_form"; CCol 1]
     (WTextInput "Enter Symbol (e.g., AAPL, IDX:BBCA, BTC-USD)");
   Render [CForm "stock_form"; CCol 2] (WSubmit "Analyze Asset")].

Definition footer : list Event :=
  [Render [] (WMarkdown (text "---"));
   Render [] (WMarkdown (text "**Disclaimer:** This application provides analysis for informational purposes only. It does not constitute financial advice."))].

(** One run of [app.py]: the events, and the session state it leaves. *)
Definition script (env : Env) (i : Inputs) : list Event * gmap string string :=
  ([Render [] (WPageConfig "Stock Analysis with Gemini Flash 2.0" "wide");
    Render [] (WTitle "📊 Financial Asset Analysis with Gemini AI");
    Render [] (WMarkdown (text description))]
   ++ api_key_section i
   ++ stock_form
   ++ (if submit_button i && str_truthy (stock_symbol i)
       then analyze env (stock_symbol i) else [])
   ++ footer,
   session_of i).

(** ** The helper modules, from the specification

    The helpers the script imports ([utils/stock_data.py],
    [utils/gemini_analysis.py], [utils/news_collector.py]) are not part of
    the sources at hand.  Where a property is decided by one of them, it is
    modelled here from its contract. *)
Module SpecModel.

(** Modelled from the spec: the price fetch of the Market Data Accessor,
    [get_stock_data], is missing.  Contract: [fetchPriceSeries(symbol,
    period) -> PriceSeries | NotFound]; it returns [NotFound] (here
    [None]), not an exception, when the upstream provider does not
    recognize the symbol.  [upstream] is what the provider knows. *)
Definition fetchPriceSeries (upstream : string → option DataFrame)
    (symbol period : string) : result (option DataFrame) :=
  Ok (upstream symbol).

(** Modelled from the spec: the remote text-generation service is an
    external collaborator.  What it does with one request: it raises, it
    returns an error, or it returns a response with some fields. *)
Inductive RemoteOutcome : Type :=
| RemoteRaises (e : Exn)
| RemoteError (msg : string)
| RemoteResponse (fields : dict).

(** Modelled from the spec: the safe default of the engine, which is
    missing: [NEUTRAL], empty summary and risk list. *)
Definition default_recommendation : dict :=
  <["recommendation" := VStr "NEUTRAL"]>
  (<["summary" := VStr ""]>
  (<["risk_factors" := VList []]>
  (<["detailed_analysis" := VStr ""]> ∅))).

Definition is_action (v : PyVal) : bool :=
  py_eq_str v "BUY" || py_eq_str v "SELL" || py_eq_str v "NEUTRAL".

Definition is_str (v : PyVal) : bool :=
  match v with VStr _ => true | _ => false end.

Definition is_str_list (v : PyVal) : bool :=
  match v with VList l => forallb is_str l | _ => false end.

(** Modelled from the spec: the decode step of the engine, which is
    missing.  It is strict: the four fields of a Recommendation, each
    present and of its type. *)
Definition decode (fields : dict) : option dict :=
  action ← fields !! "recommendation";
  summary ← fields !! "summary";
  risks ← fields !! "risk_factors";
  detail ← fields !! "detailed_analysis";
  if is_action action && is_str summary && is_str_list risks && is_str detail
  then Some (<["recommendation" := action]>
             (<["summary" := summary]>
             (<["risk_factors" := risks]>
             (<["detailed_analysis" := detail]> ∅))))
  else None.

(** Modelled from the spec: the Recommendation Engine,
    [generate_stock_analysis], is missing.  Contract: the one remote call
    is wrapped; a call that raises or returns an error, and a response
    that is malformed or lacks a field, yield the safe default instead of
    an exception. *)
Definition recommend (o : RemoteOutcome) : dict :=
  match o with
  | RemoteResponse fields => default default_recommendation (decode fields)
  | _ => default_recommendation
  end.

(** The failures of the remote call: it raises, it returns an error, or
    its response lacks one of the four fields. *)
Definition remote_failed (o : RemoteOutcome) : bool :=
  match o with
  | RemoteRaises _ | RemoteError _ => true
  | RemoteResponse fields =>
      negb (forallb (fun k => bool_decide (is_Some (fields !! k)))
              ["recommendation"; "summary"; "risk_factors"; "detailed_analysis"])
  end.

(** Modelled from the spec: what the engine, which is missing, is given
    for one recommendation; the prompt is built from it. *)
Record Request : Type := {
  request_symbol : string;
  request_data : DataFrame;
  request_info : option dict;
  request_metrics : option dict;
  request_news : list dict
}.

Section Credential.

(** Modelled from the spec: the wording of the setup prompt is left open,
    and the remote service is an external collaborator; it is given the
    credential and the request. *)
Variable setup_text : string.
Variable remote : string → Request → RemoteOutcome.

(** Modelled from the spec: what the engine, which is missing, returns
    when there is no credential: the setup prompt, in a neutral
    Recommendation. *)
Definition setup_recommendation : dict :=
  <["recommendation" := VStr "NEUTRAL"]>
  (<["summary" := VStr setup_text]>
  (<["risk_factors" := VList []]>
  (<["detailed_analysis" := VStr ""]> ∅))).

(** Modelled from the spec: the engine, [generate_stock_analysis], is
    missing.  Contract: with a credential it makes the one remote call,
    with the credential and the request; without a credential it returns
    the setup prompt instead of attempting the call.  The result is the
    list of the remote calls made and the Recommendation. *)
Definition analyse (key : string) (r : Request) : list Request * dict :=
  if str_truthy key then ([r], recommend (remote key r))
  else ([], setup_recommendation).

End Credential.

Section Sentiment.

(** Modelled from the spec: the score of one news item and the thresholds
    of the trend labels are implementation-defined in the summarizer, which
    is missing; the labels are a monotonic step function of the score. *)
Variable item_score : dict → spec_float.
Variables strongly_negative_below negative_below : spec_float.
Variables positive_above strongly_positive_above : spec_float.

Definition trend_label (score : spec_float) : string :=
  if SFltb score strongly_negative_below then "strongly negative"
  else if SFltb score negative_below then "negative"
  else if SFltb strongly_positive_above score then "strongly positive"
  else if SFltb positive_above score then "positive"
  else "neutral".

Definition mean_score (news : list dict) : spec_float :=
  SFdiv prec emax
    (foldr (fun item acc => SFadd prec emax (item_score item) acc)
           (S754_zero false) news)
    (binary_normalize prec emax (Z.of_nat (length news)) 0 false).

(** Modelled from the spec: the Sentiment Summarizer,
    [summarize_news_sentiment], is missing.  Contract: a deterministic
    function of the news items; on the empty list it returns a neutral,
    zero-score result rather than failing. *)
Definition summarize (news : list dict) : dict :=
  match news with
  | [] =>
      <["sentiment_score" := VInt 0]>
      (<["trend" := VStr "neutral"]>
      (<["summary" := VStr ""]>
      (<["key_topics" := VList []]> ∅)))
  | _ =>
      let score := mean_score news in
      <["sentiment_score" := VFloat score]>
      (<["trend" := VStr (trend_label score)]>
      (<["summary" := VStr ""]>
      (<["key_topics" := VList []]> ∅)))
  end.

End Sentiment.

End SpecModel.

(** ** Sample requests *)
Module Sample.

Definition half : spec_float := S754_finite false 4503599627370496 (-53).

Definition bar (d : nat) : Bar :=
  {| bar_date := Z.of_nat d; bar_open := half; bar_high := half;
     bar_low := half; bar_close := half; bar_volume := 1000 |}.

(** [n] daily bars, dated [0 .. n-1]. *)
Definition series (n : nat) : DataFrame := bar <$> seq 0 n.

Definition info : dict :=
  <["longName" := VStr "Apple Inc."]> (<["sector" := VStr "Technology"]> ∅).

Definition metrics_of (dividendYield : PyVal) : dict :=
  <["currentPrice" := VInt 190]>
  (<["trailingPE" := VInt 29]>
  (<["dividendYield" := dividendYield]>
  (<["revenueGrowth" := VInt 0]> ∅))).

Definition article : dict :=
  <["title" := VStr "Quarterly results"]> (<["source" := VStr "Newswire"]> ∅).

Definition sentiment : dict :=
  <["sentiment_score" := VFloat half]> (<["trend" := VStr "positive"]> ∅).

Definition buy : dict :=
  <["recommendation" := VStr "BUY"]>
  (<["summary" := VStr "Solid quarter."]>
  (<["risk_factors" := VList [VStr "Valuation"]]> ∅)).

(** Every helper returns; the price series has [n] bars. *)
Definition env (n : nat) (company_info financial_metrics : option dict)
    (news : list dict) : Env :=
  {| get_stock_data := fun _ _ => Ok (Some (series n));
     get_company_info := fun _ => Ok company_info;
     get_financial_metrics := fun _ => Ok financial_metrics;
     get_news_for_asset := fun _ _ _ => Ok news;
     generate_stock_analysis := fun _ _ _ _ _ => Ok buy;
     plot_stock_chart := fun df => Ok {| fig_rows := df |};
     summarize_news_sentiment := fun _ => Ok sentiment |}.

(** The provider does not know the symbol. *)
Definition env_unknown : Env :=
  {| get_stock_data := SpecModel.fetchPriceSeries (fun _ => None);
     get_company_info := fun _ => Ok None;
     get_financial_metrics := fun _ => Ok None;
     get_news_for_asset := fun _ _ _ => Ok [];
     generate_stock_analysis := fun _ _ _ _ _ => Ok buy;
     plot_stock_chart := fun df => Ok {| fig_rows := df |};
     summarize_news_sentiment := fun _ => Ok sentiment |}.

(** The engine of the specification, behind a remote service that is
    down. *)
Definition env_remote_down : Env :=
  {| get_stock_data := fun _ _ => Ok (Some (series 3));
     get_company_info := fun _ => Ok (Some info);
     get_financial_metrics := fun _ => Ok (Some (metrics_of VNone));
     get_news_for_asset := fun _ _ _ => Ok [article];
     generate_stock_analysis := fun _ _ _ _ _ =>
       Ok (SpecModel.recommend (SpecModel.RemoteError "503"));
     plot_stock_chart := fun df => Ok {| fig_rows := df |};
     summarize_news_sentiment := fun _ => Ok sentiment |}.

(** The price series is missing; the other helpers have data. *)
Definition env_no_price : Env :=
  {| get_stock_data := fun _ _ => Ok None;
     get_company_info := fun _ => Ok (Some info);
     get_financial_metrics := fun _ => Ok (Some (metrics_of VNone));
     get_news_for_asset := fun _ _ _ => Ok [article];
     generate_stock_analysis := fun _ _ _ _ _ => Ok buy;
     plot_stock_chart := fun df => Ok {| fig_rows := df |};
     summarize_news_sentiment := fun _ => Ok sentiment |}.

(** The metadata fetch raises. *)
Definition env_info_raises : Env :=
  {| get_stock_data := fun _ _ => Ok (Some (series 3));
     get_company_info := fun _ => Raise (HelperError "timed out");
     get_financial_metrics := fun _ => Ok (Some (metrics_of VNone));
     get_news_for_asset := fun _ _ _ => Ok [article];
     generate_stock_analysis := fun _ _ _ _ _ => Ok buy;
     plot_stock_chart := fun df => Ok {| fig_rows := df |};
     summarize_news_sentiment := fun _ => Ok sentiment |}.

(** No news for the symbol; the summarizer of the specification, with
    every item scored one half and the thresholds at one half and one. *)
Definition one : spec_float := S754_finite false 4503599627370496 (-52).

Definition summarize : list dict → dict :=
  SpecModel.summarize (fun _ => half) (SFopp one) (SFopp half) half one.

Definition env_no_news : Env :=
  {| get_stock_data := fun _ _ => Ok (Some (series 3));
     get_company_info := fun _ => Ok (Some info);
     get_financial_metrics := fun _ => Ok (Some (metrics_of VNone));
     get_news_for_asset := fun _ _ _ => Ok [];
     generate_stock_analysis := fun _ _ _ _ _ => Ok buy;
     plot_stock_chart := fun df => Ok {| fig_rows := df |};
     summarize_news_sentiment := fun news => Ok (summarize news) |}.

(** The summarizer returns a summary and nothing else. *)
Definition env_bare_sentiment : Env :=
  {| get_stock_data := fun _ _ => Ok (Some (series 3));
     get_company_info := fun _ => Ok (Some info);
     get_financial_metrics := fun _ => Ok (Some (metrics_of VNone));
     get_news_for_asset := fun _ _ _ => Ok [article];
     generate_stock_analysis := fun _ _ _ _ _ => Ok buy;
     plot_stock_chart := fun df => Ok {| fig_rows := df |};
     summarize_news_sentiment := fun _ => Ok (<["summary" := VStr "Quiet week."]> ∅) |}.

(** The engine of the specification under the credential [key], behind a
    remote service that answers every request with [buy]. *)
Definition setup_text : string :=
  "Add your Google Gemini API key to get a recommendation.".

Definition remote (key : string) (r : SpecModel.Request) : SpecModel.RemoteOutcome :=
  SpecModel.RemoteResponse (<["detailed_analysis" := VStr "Margins hold."]> buy).

Definition env_engine (key : string) : Env :=
  {| get_stock_data := fun _ _ => Ok (Some (series 3));
     get_company_info := fun _ => Ok (Some info);
     get_financial_metrics := fun _ => Ok (Some (metrics_of VNone));
     get_news_for_asset := fun _ _ _ => Ok [article];
     generate_stock_analysis := fun s data ci fm news =>
       Ok (SpecModel.analyse setup_text remote key
             {| SpecModel.request_symbol := s;
                SpecModel.request_data := data;
                SpecModel.request_info := ci;
                SpecModel.request_metrics := fm;
                SpecModel.request_news := news |}).2;
     plot_stock_chart := fun df => Ok {| fig_rows := df |};
     summarize_news_sentiment := fun _ => Ok sentiment |}.

(** Metrics whose percentages are floats or [None]. *)
Definition float_metrics : dict :=
  <["currentPrice" := VInt 190]>
  (<["dividendYield" := VFloat half]>
  (<["profitMargins" := VNone]> ∅)).

Definition request (key symbol : string) : Inputs :=
  {| session_state := <["GEMINI_API_KEY" := key]> ∅;
     api_key_input := key;
     submitted := false;
     stock_symbol := symbol;
     submit_button := true |}.

End Sample.

(** ** The two paths of the display *)

(** The symbol has a hyphen among its characters. *)
Definition contains_hyphen (stock_symbol : string) : Prop :=
  "-"%char ∈ String.list_ascii_of_string stock_symbol.

#[global] Instance contains_hyphen_dec s : Decision (contains_hyphen s) :=
  list_elem_of_dec _ _.

(** The metrics of the cryptocurrency path, and of the equity path. *)
Definition crypto_metrics (fm : dict) : M unit :=
  emit (WColumns 2);;
  within (CCol 1) (
    metric "Current Price" (dict_get fm "currentPrice" (VStr "N/A"));;
    crypto_col1 fm);;
  within (CCol 2) (crypto_col2 fm);;
  emit (WExpander more_metrics false);;
  within (CExpander more_metrics) (crypto_more fm).

Definition stock_metrics (fm : dict) : M unit :=
  emit (WColumns 2);;
  within (CCol 1) (
    metric "Current Price" (dict_get fm "currentPrice" (VStr "N/A"));;
    stock_col1 fm);;
  within (CCol 2) (stock_col2 fm);;
  emit (WExpander more_metrics false);;
  within (CExpander more_metrics) (stock_more fm).

(** ** What the metrics section displays *)

Definition in_col (i : nat) (label : string) (v : PyVal) : Event :=
  Render [CCol i] (WMetric label v).

Definition in_more (label : string) (v : PyVal) : Event :=
  Render [CExpander more_metrics] (WWrite [VStr label; v]).

(** The metrics of the equity path: the keys a metric reads, and the
    element that shows its value. *)
Definition stock_attributes : list (list string * (PyVal → Event)) :=
  [(["currentPrice"], in_col 1 "Current Price");
   (["trailingPE"], in_col 1 "P/E Ratio");
   (["dividendYield"], in_col 1 "Dividend Yield");
   (["fiftyTwoWeekHigh"], in_col 1 "52 Week High");
   (["fiftyTwoWeekLow"], in_col 1 "52 Week Low");
   (["trailingEps"], in_col 2 "EPS");
   (["priceToBook"], in_col 2 "Price to Book");
   (["returnOnEquity"], in_col 2 "Return on Equity");
   (["profitMargins"], in_col 2 "Profit Margins");
   (["debtToEquity"], in_col 2 "Debt to Equity");
   (["revenueGrowth"], in_more "**Revenue Growth:**");
   (["grossMargins"], in_more "**Gross Margins:**");
   (["operatingMargins"], in_more "**Operating Margins:**");
   (["quickRatio"], in_more "**Quick Ratio:**");
   (["currentRatio"], in_more "**Current Ratio:**");
   (["beta"], in_more "**Beta:**");
   (["sharesOutstanding"], in_more "**Shares Outstanding:**");
   (["bookValue"], in_more "**Book Value:**");
   (["targetMeanPrice"], in_more "**Target Mean Price:**")].

(** The metrics of the cryptocurrency path.  The 24h volume is read from
    [volume24Hr], and from [volume] when that key is absent. *)
Definition crypto_attributes : list (list string * (PyVal → Event)) :=
  [(["currentPrice"], in_col 1 "Current Price");
   (["regularMarketChangePercent"], in_col 1 "24h Change");
   (["volume24Hr"; "volume"], in_col 1 "24h Volume");
   (["marketCap"], in_col 1 "Market Cap");
   (["circulatingSupply"], in_col 1 "Circulating Supply");
   (["fiftyTwoWeekHigh"], in_col 2 "All-Time High");
   (["fiftyTwoWeekLow"], in_col 2 "All-Time Low");
   (["maxSupply"], in_col 2 "Max Supply");
   (["totalSupply"], in_col 2 "Total Supply");
   (["averageDailyVolume10Day"], in_col 2 "Volume Ratio");
   (["marketDominance"], in_more "**Market Dominance:**");
   (["volume"], in_more "**Trading Volume:**");
   (["averageVolume3Months"], in_more "**Avg Volume (3m):**");
   (["averageDailyVolume10Day"], in_more "**Avg Volume (10d):**");
   (["beta"], in_more "**Beta:**");
   (["ytdReturn"], in_more "**YTD Return:**")].

Definition attributes (stock_symbol : string) : list (list string * (PyVal → Event)) :=
  if is_crypto stock_symbol then crypto_attributes else stock_attributes.

(** The elements of the equity path, given the six percentage texts. *)
Definition stock_trace (stock_symbol : string) (fm : dict)
    (dividend roe margins revenueGrowth grossMargins operatingMargins : PyVal)
  : list Event :=
  [Render [] (WSubheader (stock_symbol +:+ " Financial Metrics"));
   Render [] (WColumns 2);
   in_col 1 "Current Price" (dict_get fm "currentPrice" (VStr "N/A"));
   in_col 1 "P/E Ratio" (dict_get fm "trailingPE" (VStr "N/A"));
   in_col 1 "Dividend Yield" dividend;
   in_col 1 "52 Week High" (dict_get fm "fiftyTwoWeekHigh" (VStr "N/A"));
   in_col 1 "52 Week Low" (dict_get fm "fiftyTwoWeekLow" (VStr "N/A"));
   in_col 2 "EPS" (dict_get fm "trailingEps" (VStr "N/A"));
   in_col 2 "Price to Book" (dict_get fm "priceToBook" (VStr "N/A"));
   in_col 2 "Return on Equity" roe;
   in_col 2 "Profit Margins" margins;
   in_col 2 "Debt to Equity" (dict_get fm "debtToEquity" (VStr "N/A"));
   Render [] (WExpander more_metrics false);
   in_more "**Revenue Growth:**" revenueGrowth;
   in_more "**Gross Margins:**" grossMargins;
   in_more "**Operating Margins:**" operatingMargins;
   in_more "**Quick Ratio:**" (dict_get fm "quickRatio" (VStr "N/A"));
   in_more "**Current Ratio:**" (dict_get fm "currentRatio" (VStr "N/A"));
   in_more "**Beta:**" (dict_get fm "beta" (VStr "N/A"));
   in_more "**Shares Outstanding:**" (dict_get fm "sharesOutstanding" (VStr "N/A"));
   in_more "**Book Value:**" (dict_get fm "bookValue" (VStr "N/A"));
   in_more "**Target Mean Price:**" (dict_get fm "targetMeanPrice" (VStr "N/A"))].

(** The elements of the cryptocurrency path, given the text of the 24h
    change. *)
Definition crypto_trace (stock_symbol : string) (fm : dict) (change : PyVal)
  : list Event :=
  [Render [] (WSubheader (stock_symbol +:+ " Cryptocurrency Metrics"));
   Render [] (WColumns 2);
   in_col 1 "Current Price" (dict_get fm "currentPrice" (VStr "N/A"));
   in_col 1 "24h Change" change;
   in_col 1 "24h Volume" (dict_get fm "volume24Hr" (dict_get fm "volume" (VStr "N/A")));
   in_col 1 "Market Cap" (dict_get fm "marketCap" (VStr "N/A"));
   in_col 1 "Circulating Supply" (dict_get fm "circulatingSupply" (VStr "N/A"));
   in_col 2 "All-Time High" (dict_get fm "fiftyTwoWeekHigh" (VStr "N/A"));
   in_col 2 "All-Time Low" (dict_get fm "fiftyTwoWeekLow" (VStr "N/A"));
   in_col 2 "Max Supply" (dict_get fm "maxSupply" (VStr "N/A"));
   in_col 2 "Total Supply" (dict_get fm "totalSupply" (VStr "N/A"));
   in_col 2 "Volume Ratio" (dict_get fm "averageDailyVolume10Day" (VStr "N/A"));
   Render [] (WExpander more_metrics false);
   in_more "**Market Dominance:**" (dict_get fm "marketDominance" (VStr "N/A"));
   in_more "**Trading Volume:**" (dict_get fm "volume" (VStr "N/A"));
   in_more "**Avg Volume (3m):**" (dict_get fm "averageVolume3Months" (VStr "N/A"));
   in_more "**Avg Volume (10d):**" (dict_get fm "averageDailyVolume10Day" (VStr "N/A"));
   in_more "**Beta:**" (dict_get fm "beta" (VStr "N/A"));
   in_more "**YTD Return:**" (dict_get fm "ytdReturn" (VStr "N/A"))].

(** The percentage metrics guarded by the truth value of the metric, and
    the ones guarded by [is not None]. *)
Definition truthy_guarded (stock_symbol : string) : list (string * (PyVal → Event)) :=
  if is_crypto stock_symbol
  then [("regularMarketChangePercent", in_col 1 "24h Change")]
  else [("dividendYield", in_col 1 "Dividend Yield");
        ("returnOnEquity", in_col 2 "Return on Equity");
        ("profitMargins", in_col 2 "Profit Margins")].

Definition none_guarded (stock_symbol : string) : list (string * (PyVal → Event)) :=
  if is_crypto stock_symbol then []
  else [("revenueGrowth", in_more "**Revenue Growth:**");
        ("grossMargins", in_more "**Gross Margins:**");
        ("operatingMargins", in_more "**Operating Margins:**")].

Definition pct_keys (stock_symbol : string) : list string :=
  (truthy_guarded stock_symbol).*1 ++ (none_guarded stock_symbol).*1.

(** [f"{v * 100:.2f}"] raises. *)
Definition unformattable (v : PyVal) : Prop :=
  is_ok (x ← py_mul_100 v; py_format_2f false x) = false.

(** A value the metrics section cannot display: [st.metric] refuses it,
    it has no text, or it is not [None] and cannot be formatted as a
    percentage. *)
Definition rejected (v : PyVal) : Prop :=
  is_ok (metric_value v) = false ∨ str_ok v = false ∨
  (is_not_none v = true ∧ unformattable v).

(** The metrics section of a non-empty mapping displays [e]; if the section
    raises instead, the mapping holds a value that cannot be displayed. *)
Definition displays (stock_symbol : string) (fm : dict) (e : Event) : Prop :=
  match tab3 stock_symbol (Some fm) with
  | (t, Ok _) => e ∈ t
  | (_, Raise _) => ∃ k v, fm !! k = Some v ∧ rejected v
  end.

(** The [int] 0 and the [float]s 0.0 and -0.0. *)
Definition is_zero (v : PyVal) : Prop :=
  v = VInt 0 ∨ v = VFloat (S754_zero false) ∨ v = VFloat (S754_zero true).

(** The percentage of a zero: the sign of -0.0 is kept. *)
Definition zero_percentage (v : PyVal) : string :=
  match v with
  | VFloat (S754_zero true) => "-0.00%"
  | _ => "0.00%"
  end.

(** A value the section reads from the mapping: a default text, or a value
    of the mapping. *)
Definition from_mapping (fm : dict) (x : PyVal) : Prop :=
  (∃ t, x = VStr t) ∨ ∃ k, fm !! k = Some x.

(** A value that [st.metric] and [st.write] display. *)
Definition plain (v : PyVal) : bool :=
  is_ok (metric_value v) && str_ok v.

(** Every value of the mapping satisfies [P]. *)
Definition all_values (P : PyVal → bool) (d : dict) : bool :=
  forallb (fun kv => P kv.2) (map_to_list d).

(** ** What a request displays *)

(** The helpers of the first tab return: the price series, the chart, the
    metadata, the metrics, the news and the recommendation. *)
Definition fetches (env : Env) (stock_symbol : string) (stock_data : DataFrame)
    (fig : Figure) (company_info financial_metrics : option dict)
    (news_articles : list dict) (analysis_result : dict) : Prop :=
  get_stock_data env stock_symbol "max" = Ok (Some stock_data) ∧
  plot_stock_chart env (display_data stock_data) = Ok fig ∧
  get_company_info env stock_symbol = Ok company_info ∧
  get_financial_metrics env stock_symbol = Ok financial_metrics ∧
  get_news_for_asset env 0 stock_symbol 5 = Ok news_articles ∧
  generate_stock_analysis env stock_symbol stock_data company_info
    financial_metrics news_articles = Ok analysis_result.

(** The first tab, up to the recommendation. *)
Definition tab1_calls (stock_symbol : string) (stock_data : DataFrame)
    (fig : Figure) (company_info financial_metrics : option dict)
    (news_articles : list dict) : list Event :=
  [Render [] (WSubheader (stock_symbol +:+ " Price Chart"));
   Invoke (CPlotStockChart (display_data stock_data));
   Render [] (WPlotlyChart fig);
   Render [] (WSubheader ("Gemini AI " +:+
      (if is_crypto stock_symbol then "Cryptocurrency" else "Stock") +:+ " Analysis"));
   Invoke (CGetCompanyInfo stock_symbol);
   Invoke (CGetFinancialMetrics stock_symbol);
   Invoke (CGetNews stock_symbol 5);
   Invoke (CGenerateStockAnalysis stock_symbol stock_data company_info
             financial_metrics news_articles)].

(** The recommendation of the safe default. *)
Definition safe_default_display : list Event :=
  [Render [] (WInfo (text "## Recommendation: NEUTRAL ⚖️"));
   Render [] (WMarkdown (text "### Analysis Summary"));
   Render [] (WWrite [VStr ""]);
   Render [] (WMarkdown (text "### Risk Factors"));
   Render [] (WExpander (text "Detailed Analysis") false);
   Render [CExpander (text "Detailed Analysis")] (WWrite [VStr ""])].

(** The recommendation that holds the setup prompt. *)
Definition setup_display (setup_text : string) : list Event :=
  [Render [] (WInfo (text "## Recommendation: NEUTRAL ⚖️"));
   Render [] (WMarkdown (text "### Analysis Summary"));
   Render [] (WWrite [VStr setup_text]);
   Render [] (WMarkdown (text "### Risk Factors"));
   Render [] (WExpander (text "Detailed Analysis") false);
   Render [CExpander (text "Detailed Analysis")] (WWrite [VStr ""])].

(** The placeholders of the sections. *)
Definition info_placeholder (stock_symbol : string) : list Event :=
  [Render [] (WSubheader ("About " +:+ stock_symbol));
   Render [] (WWarning (text (if is_crypto stock_symbol
                              then "Cryptocurrency information not available"
                              else "Company information not available")))].

Definition metrics_placeholder (stock_symbol : string) : list Event :=
  [Render [] (WSubheader (stock_symbol +:+ " " +:+
      (if is_crypto stock_symbol then "Cryptocurrency" else "Financial") +:+ " Metrics"));
   Render [] (WWarning (text "Financial metrics not available"))].

Definition news_placeholder (stock_symbol : string) : list Event :=
  [Render [] (WSubheader (stock_symbol +:+ " News & Sentiment Analysis"));
   Render [] (WSpinner "Fetching latest news...");
   Invoke (CGetNews stock_symbol 5);
   Render [] (WInfo (text ("No recent news found for " +:+ stock_symbol)));
   Render [] (WWrite [VStr "Try a different symbol or check back later for updated news."])].

(** What a request whose price series is missing displays. *)
Definition not_found_display (stock_symbol : string) : list Event :=
  [Render [] (WSpinner ("Analyzing " +:+ stock_symbol +:+ "..."));
   Invoke (CGetStockData stock_symbol "max");
   Render [] (WError (text ("Could not retrieve data for " +:+ stock_symbol
                            +:+ ". Please check the symbol and try again.")))].

(** The four sections of a request, one after the other. *)
Definition sections (stock_symbol : string) (t1 t2 t3 t4 : list Event) : list Event :=
  Invoke (CGetStockData stock_symbol "max") ::
  Render [] (WTabs tab_labels) ::
  (enter (CTab 1) <$> t1) ++ (enter (CTab 2) <$> t2) ++
  (enter (CTab 3) <$> t3) ++ (enter (CTab 4) <$> t4).

(** The sentiment of no news, as the fourth tab would display it. *)
Definition neutral_sentiment_display : list Event :=
  [Invoke (CSummarize []);
   Render [] (WMarkdown (text "### Market Sentiment"));
   Render [] (WHtml (text "<h4 style='color: grey;'>Sentiment: Neutral (+0.00)</h4>"));
   Render [] (WWrite [VStr ""]);
   Render [] (WMarkdown (text "### Recent News Articles"))].

(** The first tab, up to the metadata fetch. *)
Definition tab1_until_info (stock_symbol : string) (stock_data : DataFrame)
    (fig : Figure) : list Event :=
  [Render [] (WSubheader (stock_symbol +:+ " Price Chart"));
   Invoke (CPlotStockChart (display_data stock_data));
   Render [] (WPlotlyChart fig);
   Render [] (WSubheader ("Gemini AI " +:+
      (if is_crypto stock_symbol then "Cryptocurrency" else "Stock") +:+ " Analysis"));
   Invoke (CGetCompanyInfo stock_symbol)].

(** ** Helper calls, error banner, listings *)

(** The helper calls of a trace, in order. *)
Definition calls (t : list Event) : list Call :=
  omap (fun e => match e with Invoke c => Some c | Render _ _ => None end) t.

(** A computation that calls no helper. *)
Definition quiet {A} (m : M A) : Prop := calls m.1 = [].

(** The message of the handler. *)
Definition error_banner (e : Exn) : Event :=
  Render [] (WError (fstr [Lit "An error occurred: "; exn_piece e])).

(** The coloured line of the recommendation. *)
Definition recommendation_banner (analysis_result : dict) : Event :=
  let recommendation := dict_get analysis_result "recommendation" (VStr "NEUTRAL") in
  Render []
    (if py_eq_str recommendation "BUY" then
       WSuccess (fstr [Lit "## Recommendation: "; str_piece recommendation; Lit " 📈"])
     else if py_eq_str recommendation "SELL" then
       WError (fstr [Lit "## Recommendation: "; str_piece recommendation; Lit " 📉"])
     else
       WInfo (fstr [Lit "## Recommendation: "; str_piece recommendation; Lit " ⚖️"])).

(** The recommendation, up to the risk factors. *)
Definition recommendation_head (analysis_result : dict) : list Event :=
  [recommendation_banner analysis_result;
   Render [] (WMarkdown (text "### Analysis Summary"));
   Render [] (WWrite [dict_get analysis_result "summary" (VStr "No summary available")]);
   Render [] (WMarkdown (text "### Risk Factors"))].

Definition bullet (factor : PyVal) : Event :=
  Render [] (WMarkdown (fstr [Lit "- "; str_piece factor])).

Definition detailed_analysis (analysis_result : dict) : list Event :=
  [Render [] (WExpander (text "Detailed Analysis") false);
   Render [CExpander (text "Detailed Analysis")]
     (WWrite [dict_get analysis_result "detailed_analysis"
                (VStr "No detailed analysis available")])].

(** The label of the expander of the [i]-th article, counting from 0. *)
Definition article_label (i : Z) (article : dict) : Text :=
  fstr [Lit (dec (i + 1)); Lit ". ";
        str_piece (dict_get article "title" (VStr "No title")); Lit " (";
        str_piece (dict_get article "source" (VStr "Unknown")); Lit ")"].

(** The five elements of the [i]-th article. *)
Definition article_events (i : Z) (article : dict) : list Event :=
  [Render [] (WExpander (article_label i article) false);
   Render [CExpander (article_label i article)]
     (WMarkdown (fstr [Lit "**Date:** ";
                       str_piece (dict_get article "date" (VStr "Unknown date"))]));
   Render [CExpander (article_label i article)]
     (WMarkdown (fstr [Lit "**Source:** ";
                       str_piece (dict_get article "source" (VStr "Unknown"))]));
   Render [CExpander (article_label i article)]
     (WWrite [dict_get article "summary" (VStr "No summary available")]);
   Render [CExpander (article_label i article)]
     (WMarkdown (fstr [Lit "[Read full article](";
                       str_piece (dict_get article "url" (VStr "#")); Lit ")"]))].

(** The rows of the series are in the order of their dates. *)
Definition ascending (df : DataFrame) : Prop :=
  StronglySorted (fun a b => bar_date a ≤ bar_date b) df.

(** The value is [None] or a [float]. *)
Definition none_or_float (v : PyVal) : Prop :=
  match v with VNone | VFloat _ => True | _ => False end.

(** * Properties *)

(** ** The asset kind of a symbol *)

Lemma to_upper_hyphen (c : ascii) : to_upper c = "-"%char ↔ c = "-"%char.
Proof. destruct c as [[] [] [] [] [] [] [] []]; vm_compute; split; congruence. Qed.

Lemma prefix_empty (s : string) : String.prefix "" s = true.
Proof. destruct s; reflexivity. Qed.

Lemma str_contains_hyphen (s : string) :
  str_contains "-" (upper s) = bool_decide (contains_hyphen s).
Proof.
  unfold contains_hyphen.
  induction s as [|c s IH]; [reflexivity|].
  cbn [upper str_contains String.prefix String.list_ascii_of_string].
  rewrite IH, prefix_empty.
  destruct (ascii_dec "-" (to_upper c)) as [Hc|Hc].
  - symmetry in Hc. apply to_upper_hyphen in Hc as ->.
    cbn. symmetry. apply bool_decide_eq_true. apply list_elem_of_here.
  - cbn. apply bool_decide_ext. rewrite elem_of_cons.
    split; [tauto|]. intros [E|?]; [|done]. subst c. exfalso. apply Hc. reflexivity.
Qed.

Lemma metrics_paths (s : string) (fm : dict) :
  metrics s fm = if is_crypto s then crypto_metrics fm else stock_metrics fm.
Proof. unfold metrics. destruct (is_crypto s); reflexivity. Qed.

(** C1.  A symbol is classified as a cryptocurrency exactly when it
    contains a hyphen, and as an equity otherwise; the classification
    selects the cryptocurrency or the equity attribute set of the metadata
    section and of the metrics section. *)
Theorem C1_asset_kind (stock_symbol : string) (company_info : option dict)
    (financial_metrics : dict) :
  let crypto := bool_decide (contains_hyphen stock_symbol) in
  is_crypto stock_symbol = crypto ∧
  tab2 stock_symbol company_info =
    (if crypto then crypto_info stock_symbol company_info
     else company_information stock_symbol company_info) ∧
  metrics stock_symbol financial_metrics =
    (if crypto then crypto_metrics financial_metrics
     else stock_metrics financial_metrics).
Proof.
  cbn zeta.
  assert (is_crypto stock_symbol = bool_decide (contains_hyphen stock_symbol)) as E
    by apply str_contains_hyphen.
  split; [exact E|]. rewrite <- E. split.
  - reflexivity.
  - apply metrics_paths.
Qed.

Example is_crypto_BTC_USD : is_crypto "BTC-USD" = true.
Proof. reflexivity. Qed.
Example is_crypto_AAPL : is_crypto "AAPL" = false.
Proof. reflexivity. Qed.
Example is_crypto_IDX_BBCA : is_crypto "IDX:BBCA" = false.
Proof. reflexivity. Qed.

(** ** The display window *)

Lemma tail_length (n : nat) (df : DataFrame) :
  length (tail n df) = (length df `min` n)%nat.
Proof. unfold tail. rewrite length_drop. lia. Qed.

Lemma tail_suffix (n : nat) (df : DataFrame) :
  df = take (length df - n) df ++ tail n df.
Proof. unfold tail. symmetry. apply take_drop. Qed.

(** C2.  The display series of a series of [L] bars has [min L 252] bars:
    the latest ones, in the order of the series. *)
Theorem C2_display_window (stock_data : DataFrame) :
  length (display_data stock_data) = (length stock_data `min` 252)%nat ∧
  ∃ older, stock_data = older ++ display_data stock_data.
Proof.
  unfold display_data.
  destruct (252 <? length stock_data)%nat eqn:E.
  - apply Nat.ltb_lt in E. split.
    + apply tail_length.
    + eexists. apply tail_suffix.
  - apply Nat.ltb_ge in E. split; [lia|]. by exists [].
Qed.

Example display_data_300 :
  display_data (Sample.series 300) = Sample.bar <$> seq 48 252.
Proof. vm_compute. reflexivity. Qed.

(** ** The metrics section *)

Lemma dict_get_absent (d : dict) (k : string) (v : PyVal) :
  d !! k = None → dict_get d k v = v.
Proof. unfold dict_get. by intros ->. Qed.

Lemma dict_get_present (d : dict) (k : string) (v w : PyVal) :
  d !! k = Some w → dict_get d k v = w.
Proof. unfold dict_get. by intros ->. Qed.

Lemma pct_if_truthy_absent (d : dict) (k : string) :
  d !! k = None → pct_if_truthy d k = Ok (VStr "N/A").
Proof. intros H. unfold pct_if_truthy, dict_get_none. by rewrite dict_get_absent. Qed.

Lemma pct_if_not_none_absent (d : dict) (k : string) :
  d !! k = None → pct_if_not_none d k = Ok (VStr "N/A").
Proof. intros H. unfold pct_if_not_none, dict_get_none. by rewrite dict_get_absent. Qed.

Lemma truthy_not_none (v : PyVal) : truthy v = true → is_not_none v = true.
Proof. by destruct v. Qed.

Lemma pct_if_truthy_raise (d : dict) (k : string) (e : Exn) :
  pct_if_truthy d k = Raise e → ∃ v, d !! k = Some v ∧ rejected v.
Proof.
  destruct (d !! k) as [v|] eqn:E.
  - intros H. exists v. split; [done|]. right. right.
    unfold pct_if_truthy, dict_get_none in H.
    rewrite !(dict_get_present _ _ _ v) in H by done.
    unfold unformattable. destruct (truthy v) eqn:Ht; [|done].
    split; [by apply truthy_not_none|].
    destruct (py_mul_100 v) as [x|]; [|done]. cbn in *.
    by destruct (py_format_2f false x).
  - by rewrite pct_if_truthy_absent.
Qed.

Lemma pct_if_not_none_raise (d : dict) (k : string) (e : Exn) :
  pct_if_not_none d k = Raise e → ∃ v, d !! k = Some v ∧ rejected v.
Proof.
  destruct (d !! k) as [v|] eqn:E.
  - intros H. exists v. split; [done|]. right. right.
    unfold pct_if_not_none, dict_get_none in H.
    rewrite !(dict_get_present _ _ _ v) in H by done.
    unfold unformattable. destruct (is_not_none v); [|done].
    split; [done|].
    destruct (py_mul_100 v) as [x|]; [|done]. cbn in *.
    by destruct (py_format_2f false x).
  - by rewrite pct_if_not_none_absent.
Qed.

(** The text of a percentage is a [str]. *)
Lemma pct_if_truthy_str (d : dict) (k : string) (x : PyVal) :
  pct_if_truthy d k = Ok x → ∃ t, x = VStr t.
Proof.
  unfold pct_if_truthy. destruct (truthy _); [|intros [= <-]; eauto].
  destruct (py_mul_100 _) as [y|]; [|done]. cbn.
  destruct (py_format_2f false y); [|done]. intros [= <-]. eauto.
Qed.

Lemma pct_if_not_none_str (d : dict) (k : string) (x : PyVal) :
  pct_if_not_none d k = Ok x → ∃ t, x = VStr t.
Proof.
  unfold pct_if_not_none. destruct (is_not_none _); [|intros [= <-]; eauto].
  destruct (py_mul_100 _) as [y|]; [|done]. cbn.
  destruct (py_format_2f false y); [|done]. intros [= <-]. eauto.
Qed.

Lemma pct_if_truthy_zero (d : dict) (k : string) (v : PyVal) :
  is_zero v → d !! k = Some v → pct_if_truthy d k = Ok (VStr "N/A").
Proof.
  intros Hz H. unfold pct_if_truthy, dict_get_none.
  rewrite (dict_get_present _ _ _ v) by done. by destruct Hz as [-> | [-> | ->]].
Qed.

Lemma pct_if_not_none_zero (d : dict) (k : string) (v : PyVal) :
  is_zero v → d !! k = Some v →
  pct_if_not_none d k = Ok (VStr (zero_percentage v)).
Proof.
  intros Hz H. unfold pct_if_not_none, dict_get_none.
  rewrite !(dict_get_present _ _ _ v) by done.
  destruct Hz as [-> | [-> | ->]]; vm_compute; reflexivity.
Qed.

(** [st.write(label, v)]: what it displays, and how it ends. *)
Lemma write2_pair (label : string) (v : PyVal) :
  write2 label v =
    (if str_ok v then [Render [] (WWrite [VStr label; v])]
     else match v with
          | VList _ => [Render [] (WWrite [VStr label])]
          | _ => []
          end,
     if str_ok v then Ok tt else Raise ValueError).
Proof.
  unfold write2, write.
  destruct v as [| | | | |l]; cbn -[int_str_ok]; try reflexivity;
    match goal with |- context [if ?c then _ else _] => destruct c end;
    reflexivity.
Qed.

Lemma write1_pair (v : PyVal) :
  write [v] =
    (if str_ok v then [Render [] (WWrite [v])] else [],
     if str_ok v then Ok tt else Raise ValueError).
Proof.
  unfold write.
  destruct v as [| | | | |l]; cbn -[int_str_ok]; try reflexivity;
    match goal with |- context [if ?c then _ else _] => destruct c end;
    reflexivity.
Qed.

Lemma from_mapping_default (fm : dict) (t : string) : from_mapping fm (VStr t).
Proof. left. eauto. Qed.

Lemma from_mapping_get (fm : dict) (k : string) (d : PyVal) :
  from_mapping fm d → from_mapping fm (dict_get fm k d).
Proof.
  intros H. unfold dict_get. destruct (fm !! k) as [v|] eqn:E; [|exact H].
  right. eauto.
Qed.

Lemma blame_metric (fm : dict) (x : PyVal) (e : Exn) :
  metric_value x = Raise e → from_mapping fm x →
  ∃ k v, fm !! k = Some v ∧ rejected v.
Proof.
  intros E [[t ->]|[k Hk]]; [done|].
  exists k, x. split; [done|]. left. by rewrite E.
Qed.

Lemma blame_str (fm : dict) (x : PyVal) :
  str_ok x = false → from_mapping fm x →
  ∃ k v, fm !! k = Some v ∧ rejected v.
Proof.
  intros E [[t ->]|[k Hk]]; [done|].
  exists k, x. split; [done|]. right. by left.
Qed.

#[local] Opaque dict_get pct_if_truthy pct_if_not_none String.append.

Ltac run_section :=
  cbn -[dict_get pct_if_truthy pct_if_not_none String.append].

Ltac from_the_mapping := repeat apply from_mapping_get; apply from_mapping_default.

(** One [st.metric] of the section: it displays, or the mapping is to
    blame. *)
Ltac step_metric k :=
  match goal with
  | |- context [metric_value (dict_get ?fm k ?d)] =>
      let E := fresh "E" in
      destruct (metric_value (dict_get fm k d)) as [[]|] eqn:E;
      [|run_section; apply (blame_metric _ _ _ E); from_the_mapping]
  end.

Ltac step_write k :=
  match goal with
  | |- context [str_ok (dict_get ?fm k ?d)] =>
      let E := fresh "E" in
      destruct (str_ok (dict_get fm k d)) eqn:E;
      [|run_section; apply (blame_str _ _ E); from_the_mapping]
  end.

Ltac step_truthy k :=
  match goal with
  | |- context [pct_if_truthy ?fm k] =>
      let E := fresh "E" in
      let x := fresh "x" in
      destruct (pct_if_truthy fm k) as [x|] eqn:E;
      [destruct (pct_if_truthy_str _ _ _ E) as [? ->]
      |run_section; apply pct_if_truthy_raise in E as (? & ? & ?); eauto]
  end.

Ltac step_not_none k :=
  match goal with
  | |- context [pct_if_not_none ?fm k] =>
      let E := fresh "E" in
      let x := fresh "x" in
      destruct (pct_if_not_none fm k) as [x|] eqn:E;
      [destruct (pct_if_not_none_str _ _ _ E) as [? ->]
      |run_section; apply pct_if_not_none_raise in E as (? & ? & ?); eauto]
  end.

(** The equity path: the section displays its elements, or raises on a
    value of the mapping that cannot be displayed. *)
Lemma tab3_stock (s : string) (fm : dict) :
  is_crypto s = false → fm ≠ ∅ →
  match tab3 s (Some fm) with
  | (t, Ok _) =>
      ∃ d r p g gm om,
        pct_if_truthy fm "dividendYield" = Ok d ∧
        pct_if_truthy fm "returnOnEquity" = Ok r ∧
        pct_if_truthy fm "profitMargins" = Ok p ∧
        pct_if_not_none fm "revenueGrowth" = Ok g ∧
        pct_if_not_none fm "grossMargins" = Ok gm ∧
        pct_if_not_none fm "operatingMargins" = Ok om ∧
        t = stock_trace s fm d r p g gm om
  | (_, Raise _) => ∃ k v, fm !! k = Some v ∧ rejected v
  end.
Proof.
  intros Hc Hne.
  unfold tab3, if_dict. rewrite bool_decide_eq_false_2 by done.
  rewrite metrics_paths, Hc.
  unfold stock_metrics, stock_col1, stock_col2, stock_more, metric.
  rewrite !write2_pair.
  step_metric "currentPrice". step_metric "trailingPE".
  step_truthy "dividendYield".
  step_metric "fiftyTwoWeekHigh". step_metric "fiftyTwoWeekLow".
  step_metric "trailingEps". step_metric "priceToBook".
  step_truthy "returnOnEquity". step_truthy "profitMargins".
  step_metric "debtToEquity".
  step_not_none "revenueGrowth". step_not_none "grossMargins".
  step_not_none "operatingMargins".
  step_write "quickRatio". step_write "currentRatio". step_write "beta".
  step_write "sharesOutstanding". step_write "bookValue".
  step_write "targetMeanPrice".
  run_section. eexists _, _, _, _, _, _. repeat split; try eassumption.
Qed.

(** The cryptocurrency path. *)
Lemma tab3_crypto (s : string) (fm : dict) :
  is_crypto s = true → fm ≠ ∅ →
  match tab3 s (Some fm) with
  | (t, Ok _) =>
      ∃ c, pct_if_truthy fm "regularMarketChangePercent" = Ok c ∧
           t = crypto_trace s fm c
  | (_, Raise _) => ∃ k v, fm !! k = Some v ∧ rejected v
  end.
Proof.
  intros Hc Hne.
  unfold tab3, if_dict. rewrite bool_decide_eq_false_2 by done.
  rewrite metrics_paths, Hc.
  unfold crypto_metrics, crypto_col1, crypto_col2, crypto_more, metric.
  rewrite !write2_pair.
  step_metric "currentPrice".
  step_truthy "regularMarketChangePercent".
  step_metric "volume24Hr". step_metric "marketCap".
  step_metric "circulatingSupply".
  step_metric "fiftyTwoWeekHigh". step_metric "fiftyTwoWeekLow".
  step_metric "maxSupply". step_metric "totalSupply".
  step_metric "averageDailyVolume10Day".
  step_write "marketDominance". step_write "volume".
  step_write "averageVolume3Months". step_write "averageDailyVolume10Day".
  step_write "beta". step_write "ytdReturn".
  run_section. eexists. repeat split.
Qed.

Ltac absent_keys :=
  repeat match goal with
  | H : Forall _ (_ :: _) |- _ => apply Forall_cons in H as [? H]
  end;
  repeat match goal with
  | H : ?fm !! ?k = None |- _ =>
      rewrite ?(dict_get_absent fm k) by exact H;
      rewrite ?(pct_if_truthy_absent fm k H), ?(pct_if_not_none_absent fm k H) in *;
      clear H
  end.

Ltac shown :=
  simplify_eq;
  repeat first [apply list_elem_of_here | apply list_elem_of_further].

Ltac each_attribute H :=
  repeat (apply elem_of_cons in H as [H|H]; [simplify_eq|]);
  [..|by apply elem_of_nil in H].






(** ** The sections of a request *)

Lemma bind_call {A B} (c : Call) (a : A) (f : A → M B) :
  call c (Ok a) ≫= f = (Invoke c :: (f a).1, (f a).2).
Proof. unfold call, mbind, M_bind. by destruct (f a). Qed.

Lemma bind_call_raise {A B} (c : Call) (e : Exn) (f : A → M B) :
  call c (Raise e) ≫= f = ([Invoke c], Raise e).
Proof. reflexivity. Qed.

Lemma bind_ok {A B} (m : M A) (f : A → M B) (a : A) :
  m.2 = Ok a → m ≫= f = (m.1 ++ (f a).1, (f a).2).
Proof.
  destruct m as [t r]. cbn. intros ->. unfold mbind, M_bind. by destruct (f a).
Qed.

Lemma bind_raise {A B} (m : M A) (f : A → M B) (e : Exn) :
  m.2 = Raise e → m ≫= f = (m.1, Raise e).
Proof. destruct m as [t r]. cbn. by intros ->. Qed.

Lemma if_dict_falsy {A} (d : option dict) (a : dict → A) (b : A) :
  dict_truthy d = false → if_dict d a b = b.
Proof.
  unfold dict_truthy, if_dict. destruct d as [d|]; [|done].
  by destruct (bool_decide (d = ∅)).
Qed.

Lemma tab2_empty (s : string) (ci : option dict) :
  dict_truthy ci = false → tab2 s ci = (info_placeholder s, Ok tt).
Proof.
  intros H. unfold tab2, crypto_info, company_information, info_placeholder.
  rewrite !if_dict_falsy by done. by destruct (is_crypto s).
Qed.

Lemma tab3_empty (s : string) (fm : option dict) :
  dict_truthy fm = false → tab3 s fm = (metrics_placeholder s, Ok tt).
Proof.
  intros H. unfold tab3, metrics_placeholder. by rewrite if_dict_falsy.
Qed.

(** A value of a mapping all of whose values have a text has one, and so
    has the value read with a default that has one. *)
Lemma dict_get_str_ok (d : dict) (k : string) (v : PyVal) :
  (∀ k w, d !! k = Some w → str_ok w = true) → str_ok v = true →
  str_ok (dict_get d k v) = true.
Proof.
  intros Hd Hv. destruct (d !! k) as [w|] eqn:E.
  - rewrite (dict_get_present _ _ _ w E). by apply (Hd k).
  - by rewrite (dict_get_absent _ _ _ E).
Qed.

(** The metadata section does not raise on a mapping all of whose values
    have a text. *)
Lemma tab2_plain (s : string) (ci : option dict) :
  (∀ d k w, ci = Some d → d !! k = Some w → str_ok w = true) →
  (tab2 s ci).2 = Ok tt.
Proof.
  intros H. unfold tab2, crypto_info, company_information, if_dict.
  destruct ci as [d|]; [|by destruct (is_crypto s)].
  destruct (bool_decide (d = ∅)); [by destruct (is_crypto s)|].
  assert (∀ k v, str_ok v = true → str_ok (dict_get d k v) = true) as Hd
    by (intros; apply dict_get_str_ok; [intros; by eapply H|done]).
  rewrite !write2_pair, !write1_pair.
  rewrite !Hd by (try apply Hd; reflexivity).
  by destruct (is_crypto s).
Qed.

Lemma tab4_empty (env : Env) (s : string) :
  get_news_for_asset env 1 s 5 = Ok [] → tab4 env s = (news_placeholder s, Ok tt).
Proof. intros H. unfold tab4. rewrite H. reflexivity. Qed.

(** The first tab, when its helpers return: the calls, then the
    recommendation. *)
Lemma tab1_run (env : Env) (s : string) (data : DataFrame) (fig : Figure)
    (ci fm : option dict) (news : list dict) (res : dict) :
  fetches env s data fig ci fm news res →
  tab1 env s data (display_data data) =
    (tab1_calls s data fig ci fm news ++ (show_recommendation res).1,
     match (show_recommendation res).2 with
     | Ok _ => Ok (ci, fm)
     | Raise e => Raise e
     end).
Proof.
  intros (_ & Hplot & Hci & Hfm & Hnews & Hres).
  unfold tab1, tab1_calls.
  rewrite Hplot; cbn -[show_recommendation is_crypto display_data].
  rewrite Hci; cbn -[show_recommendation is_crypto display_data].
  rewrite Hfm; cbn -[show_recommendation is_crypto display_data].
  rewrite Hnews; cbn -[show_recommendation is_crypto display_data].
  rewrite Hres; cbn -[show_recommendation is_crypto display_data].
  destruct (show_recommendation res) as [t [[]|e]];
    cbn -[is_crypto display_data]; rewrite ?app_nil_r; reflexivity.
Qed.

(** A request whose helpers return and whose sections do not raise displays
    the four sections, one after the other. *)
Lemma analysis_run (env : Env) (s : string) (data : DataFrame) (fig : Figure)
    (ci fm : option dict) (news : list dict) (res : dict) :
  fetches env s data fig ci fm news res →
  (show_recommendation res).2 = Ok tt →
  (tab2 s ci).2 = Ok tt →
  (tab3 s fm).2 = Ok tt →
  (tab4 env s).2 = Ok tt →
  analysis env s =
    (sections s (tab1_calls s data fig ci fm news ++ (show_recommendation res).1)
       (tab2 s ci).1 (tab3 s fm).1 (tab4 env s).1, Ok tt).
Proof.
  intros Hf Hrec H2 H3 H4. pose proof (tab1_run _ _ _ _ _ _ _ _ Hf) as H1.
  destruct Hf as (Hdata & _). rewrite Hrec in H1.
  unfold analysis, sections. rewrite Hdata, bind_call. cbv beta iota zeta.
  rewrite (bind_ok (emit _) _ tt) by reflexivity.
  rewrite (bind_ok (within (CTab 1) _) _ (ci, fm)) by (unfold within; cbn [snd]; by rewrite H1).
  rewrite (bind_ok (within (CTab 2) _) _ tt) by exact H2.
  rewrite (bind_ok (within (CTab 3) _) _ tt) by exact H3.
  unfold within. cbn [fst snd]. rewrite H1, H4. reflexivity.
Qed.

(** A request whose price series is missing displays the error message and
    no section; the price helper is called once. *)
Lemma analyze_not_found (env : Env) (s : string) :
  get_stock_data env s "max" = Ok None → analyze env s = not_found_display s.
Proof. intros H. unfold analyze, analysis. rewrite H. reflexivity. Qed.

(** ** The recommendation *)

Lemma decode_missing (fields : dict) (k : string) :
  k ∈ ["recommendation"; "summary"; "risk_factors"; "detailed_analysis"] →
  fields !! k = None → SpecModel.decode fields = None.
Proof.
  intros Hk Hnone. unfold SpecModel.decode.
  destruct (fields !! "recommendation") as [a|] eqn:E1; cbn -[lookup];
    [|reflexivity].
  destruct (fields !! "summary") as [b|] eqn:E2; cbn -[lookup]; [|reflexivity].
  destruct (fields !! "risk_factors") as [c|] eqn:E3; cbn -[lookup];
    [|reflexivity].
  destruct (fields !! "detailed_analysis") as [d|] eqn:E4; cbn -[lookup];
    [|reflexivity].
  exfalso.
  repeat (apply elem_of_cons in Hk as [->|Hk]; [congruence|]).
  by apply elem_of_nil in Hk.
Qed.

Lemma recommend_failed (o : SpecModel.RemoteOutcome) :
  SpecModel.remote_failed o = true →
  SpecModel.recommend o = SpecModel.default_recommendation.
Proof.
  destruct o as [e|msg|fields]; [reflexivity..|].
  unfold SpecModel.remote_failed, SpecModel.recommend.
  intros H%negb_true_iff.
  destruct (SpecModel.decode fields) as [d|] eqn:Hd; [|reflexivity].
  exfalso. rewrite <- not_true_iff_false in H. apply H.
  apply forallb_forall. intros k Hk%list_elem_of_In.
  apply bool_decide_eq_true. destruct (fields !! k) eqn:E; [eauto|].
  by rewrite (decode_missing fields k) in Hd.
Qed.

Lemma show_default_recommendation :
  show_recommendation SpecModel.default_recommendation = (safe_default_display, Ok tt).
Proof. vm_compute. reflexivity. Qed.

(** C3.  When the remote recommendation call raises, returns an error, or
    returns a response that lacks a field, the engine yields the safe
    default, and the first tab displays it: NEUTRAL, the empty placeholder
    summary, no risk factor; nothing is raised, and the request goes on to
    the next section. *)
Theorem C3_safe_default (env : Env) (stock_symbol : string) (stock_data : DataFrame)
    (fig : Figure) (company_info financial_metrics : option dict)
    (news_articles : list dict) (o : SpecModel.RemoteOutcome) :
  fetches env stock_symbol stock_data fig company_info financial_metrics
    news_articles (SpecModel.recommend o) →
  SpecModel.remote_failed o = true →
  SpecModel.recommend o = SpecModel.default_recommendation ∧
  tab1 env stock_symbol stock_data (display_data stock_data) =
    (tab1_calls stock_symbol stock_data fig company_info financial_metrics
       news_articles ++ safe_default_display,
     Ok (company_info, financial_metrics)) ∧
  ∃ rest outcome,
    analysis env stock_symbol =
      (Invoke (CGetStockData stock_symbol "max") ::
       Render [] (WTabs tab_labels) ::
       (enter (CTab 1) <$>
          tab1_calls stock_symbol stock_data fig company_info financial_metrics
            news_articles ++ safe_default_display) ++
       (enter (CTab 2) <$> (tab2 stock_symbol company_info).1) ++ rest,
       outcome).
Proof.
  intros Hf Hfail. pose proof (recommend_failed o Hfail) as Hdef.
  pose proof (tab1_run _ _ _ _ _ _ _ _ Hf) as H1.
  rewrite Hdef, show_default_recommendation in H1. cbn [fst snd] in H1.
  split; [done|]. split; [done|].
  destruct Hf as (Hdata & _).
  unfold analysis. rewrite Hdata, bind_call. cbv beta iota zeta.
  rewrite (bind_ok (emit _) _ tt) by reflexivity.
  rewrite (bind_ok (within (CTab 1) _) _ (company_info, financial_metrics))
    by (unfold within; cbn [snd]; by rewrite H1).
  destruct ((tab2 stock_symbol company_info).2) as [[]|e] eqn:E2.
  - rewrite (bind_ok (within (CTab 2) _) _ tt) by exact E2.
    unfold within at 1 2. cbn [fst snd]. rewrite H1. cbn [fst snd].
    eexists _, _. reflexivity.
  - rewrite (bind_raise (within (CTab 2) _) _ e) by exact E2.
    unfold within. cbn [fst snd]. rewrite H1. cbn [fst snd].
    exists [], (Raise e). rewrite app_nil_r. reflexivity.
Qed.

Lemma C3_safe_default_witness :
  tab1 Sample.env_remote_down "AAPL" (Sample.series 3) (display_data (Sample.series 3)) =
    (tab1_calls "AAPL" (Sample.series 3) {| fig_rows := Sample.series 3 |}
       (Some Sample.info) (Some (Sample.metrics_of VNone)) [Sample.article]
       ++ safe_default_display,
     Ok (Some Sample.info, Some (Sample.metrics_of VNone))).
Proof.
  refine (proj1 (proj2 (C3_safe_default Sample.env_remote_down "AAPL" (Sample.series 3)
    {| fig_rows := Sample.series 3 |} (Some Sample.info)
    (Some (Sample.metrics_of VNone)) [Sample.article] (SpecModel.RemoteError "503")
    _ _))).
  - repeat split.
  - reflexivity.
Defined.

(** The script's own defaults: a result of the engine that lacks the
    recommendation, the summary and the risk factors, and whose detailed
    analysis has a text, is displayed as NEUTRAL, with the placeholder
    summary and no risk factor. *)
Lemma show_recommendation_absent (res : dict) :
  res !! "recommendation" = None →
  res !! "summary" = None →
  res !! "risk_factors" = None →
  str_ok (dict_get res "detailed_analysis"
            (VStr "No detailed analysis available")) = true →
  show_recommendation res =
    ([Render [] (WInfo (text "## Recommendation: NEUTRAL ⚖️"));
      Render [] (WMarkdown (text "### Analysis Summary"));
      Render [] (WWrite [VStr "No summary available"]);
      Render [] (WMarkdown (text "### Risk Factors"));
      Render [] (WExpander (text "Detailed Analysis") false);
      Render [CExpander (text "Detailed Analysis")]
        (WWrite [dict_get res "detailed_analysis"
                   (VStr "No detailed analysis available")])], Ok tt).
Proof.
  intros H1 H2 H3 H4. unfold show_recommendation.
  rewrite (dict_get_absent res "recommendation"), (dict_get_absent res "summary"),
    (dict_get_absent res "risk_factors") by done.
  rewrite !write1_pair, H4. reflexivity.
Qed.

(** The call of the engine is not guarded: an exception it raised would end
    the request in the handler. *)
Lemma engine_raise_aborts (env : Env) (s : string) (data : DataFrame) (fig : Figure)
    (ci fm : option dict) (news : list dict) (e : Exn) :
  plot_stock_chart env (display_data data) = Ok fig →
  get_company_info env s = Ok ci →
  get_financial_metrics env s = Ok fm →
  get_news_for_asset env 0 s 5 = Ok news →
  generate_stock_analysis env s data ci fm news = Raise e →
  tab1 env s data (display_data data) = (tab1_calls s data fig ci fm news, Raise e).
Proof.
  intros Hplot Hci Hfm Hnews Hres. unfold tab1, tab1_calls.
  rewrite Hplot; cbn -[show_recommendation is_crypto display_data].
  rewrite Hci; cbn -[show_recommendation is_crypto display_data].
  rewrite Hfm; cbn -[show_recommendation is_crypto display_data].
  rewrite Hnews; cbn -[show_recommendation is_crypto display_data].
  rewrite Hres. reflexivity.
Qed.

(** ** A symbol the provider does not know *)

(** C7.  For a symbol the upstream provider does not recognize, the price
    fetch returns the not-found value, not an exception; the request shows
    the error message and nothing else: no tab, chart, analysis, metrics or
    news; the price helper is called once. *)
Theorem C7_symbol_not_found (env : Env) (upstream : string → option DataFrame)
    (stock_symbol : string) :
  get_stock_data env = SpecModel.fetchPriceSeries upstream →
  upstream stock_symbol = None →
  get_stock_data env stock_symbol "max" = Ok None ∧
  analyze env stock_symbol = not_found_display stock_symbol.
Proof.
  intros Henv Hup.
  assert (get_stock_data env stock_symbol "max" = Ok None) as H.
  { rewrite Henv. unfold SpecModel.fetchPriceSeries. by rewrite Hup. }
  split; [exact H|]. by apply analyze_not_found.
Qed.

Lemma C7_symbol_not_found_witness :
  analyze Sample.env_unknown "ZZZZ" = not_found_display "ZZZZ".
Proof.
  exact (proj2 (C7_symbol_not_found Sample.env_unknown (fun _ => None) "ZZZZ"
                  eq_refl eq_refl)).
Defined.

(** ** The sentiment of no news *)

(** C9.  The Sentiment Summarizer returns, for an empty news list, a result
    with score 0 and trend "neutral"; the result is one the fourth tab can
    display.  (The script itself does not call the summarizer when there is
    no news: it displays the placeholder of the section.) *)
Theorem C9_empty_news (item_score : dict → spec_float)
    (strongly_negative_below negative_below positive_above strongly_positive_above
       : spec_float)
    (env : Env) (stock_symbol : string) :
  let result :=
    SpecModel.summarize item_score strongly_negative_below negative_below
      positive_above strongly_positive_above [] in
  result !! "sentiment_score" = Some (VInt 0) ∧
  result !! "trend" = Some (VStr "neutral") ∧
  (summarize_news_sentiment env [] = Ok result →
   show_news env [] = (neutral_sentiment_display, Ok tt)) ∧
  (get_news_for_asset env 1 stock_symbol 5 = Ok [] →
   tab4 env stock_symbol = (news_placeholder stock_symbol, Ok tt)).
Proof.
  cbn zeta. unfold SpecModel.summarize.
  split; [reflexivity|]. split; [reflexivity|]. split.
  - intros H. unfold show_news. rewrite H, bind_call. vm_compute. reflexivity.
  - apply tab4_empty.
Qed.

Lemma C9_empty_news_witness :
  show_news Sample.env_no_news [] = (neutral_sentiment_display, Ok tt) ∧
  tab4 Sample.env_no_news "AAPL" = (news_placeholder "AAPL", Ok tt).
Proof.
  destruct (C9_empty_news (fun _ => Sample.half) (SFopp Sample.one)
              (SFopp Sample.half) Sample.half Sample.one Sample.env_no_news "AAPL")
    as (_ & _ & H1 & H2).
  split; [apply H1 | apply H2]; reflexivity.
Defined.

(** ** The credential *)

(** A request whose first-tab helpers return displays the first tab up to
    the recommendation, whatever follows. *)
Lemma analysis_prefix (env : Env) (s : string) (data : DataFrame) (fig : Figure)
    (ci fm : option dict) (news : list dict) (res : dict) :
  fetches env s data fig ci fm news res →
  ∃ rest outcome,
    analysis env s =
      (Invoke (CGetStockData s "max") :: Render [] (WTabs tab_labels) ::
       (enter (CTab 1) <$> tab1_calls s data fig ci fm news ++
                            (show_recommendation res).1) ++ rest,
       outcome).
Proof.
  intros Hf. pose proof (tab1_run _ _ _ _ _ _ _ _ Hf) as H1.
  destruct Hf as (Hdata & _).
  unfold analysis. rewrite Hdata, bind_call. cbv beta iota zeta.
  rewrite (bind_ok (emit _) _ tt) by reflexivity.
  destruct ((show_recommendation res).2) as [[]|e] eqn:Hrec.
  - rewrite (bind_ok (within (CTab 1) _) _ (ci, fm))
      by (unfold within; cbn [snd]; by rewrite H1).
    unfold within at 1. cbn [fst snd]. rewrite H1. cbn [fst snd].
    eexists _, _. reflexivity.
  - rewrite (bind_raise (within (CTab 1) _) _ e)
      by (unfold within; cbn [snd]; by rewrite H1).
    unfold within. cbn [fst snd]. rewrite H1. cbn [fst snd].
    exists [], (Raise e). by rewrite app_nil_r.
Qed.

Lemma analyze_analysis (env : Env) (s : string) (e : Event) :
  e ∈ (analysis env s).1 → e ∈ analyze env s.
Proof.
  unfold analyze. destruct (analysis env s) as [t [[]|x]]; cbn; set_solver.
Qed.

Lemma script_analyze (env : Env) (i : Inputs) (e : Event) :
  submit_button i = true → str_truthy (stock_symbol i) = true →
  e ∈ analyze env (stock_symbol i) → e ∈ (script env i).1.
Proof.
  intros Hb Hs He. unfold script. cbn [fst]. rewrite Hb, Hs. cbn [andb].
  rewrite !elem_of_app. tauto.
Qed.

Lemma show_setup_recommendation (setup_text : string) :
  show_recommendation (SpecModel.setup_recommendation setup_text) =
    (setup_display setup_text, Ok tt).
Proof. vm_compute. reflexivity. Qed.

(** The script itself has no credential guard: in every request, the
    credential set or not, it calls the engine once the price series, the
    chart and the three fetches before it have returned, and displays what
    the engine returns. *)
Lemma engine_called (env : Env) (i : Inputs) (stock_data : DataFrame)
    (fig : Figure) (company_info financial_metrics : option dict)
    (news_articles : list dict) (analysis_result : dict) :
  submit_button i = true →
  str_truthy (stock_symbol i) = true →
  fetches env (stock_symbol i) stock_data fig company_info financial_metrics
    news_articles analysis_result →
  Invoke (CGenerateStockAnalysis (stock_symbol i) stock_data company_info
            financial_metrics news_articles) ∈ (script env i).1 ∧
  (∀ e, e ∈ (show_recommendation analysis_result).1 →
        enter (CTab 1) e ∈ (script env i).1).
Proof.
  intros Hb Hs Hf.
  destruct (analysis_prefix _ _ _ _ _ _ _ _ Hf) as (rest & outcome & Hrun).
  split.
  - apply script_analyze, analyze_analysis; [done..|]. rewrite Hrun. cbn [fst].
    do 2 apply list_elem_of_further. apply elem_of_app. left.
    apply list_elem_of_fmap. exists (Invoke (CGenerateStockAnalysis (stock_symbol i)
      stock_data company_info financial_metrics news_articles)).
    split; [reflexivity|]. apply elem_of_app. left. unfold tab1_calls.
    do 7 apply list_elem_of_further. apply list_elem_of_here.
  - intros e He.
    apply script_analyze, analyze_analysis; [done..|]. rewrite Hrun. cbn [fst].
    do 2 apply list_elem_of_further. apply elem_of_app. left.
    apply list_elem_of_fmap. exists e. split; [reflexivity|].
    apply elem_of_app. by right.
Qed.


(** ** Failing fetches *)



Example info_placeholder_ETH_USD :
  info_placeholder "ETH-USD" =
    [Render [] (WSubheader "About ETH-USD");
     Render [] (WWarning (text "Cryptocurrency information not available"))].
Proof. vm_compute. reflexivity. Qed.

(** C4, as the script has it.  When the price series is there, no helper
    raises and no section raises on its data, an empty result of the
    metadata, the metrics or the news fetch makes its own section display
    its placeholder, and the four sections are all displayed.  A missing price series ends the request with the error
    message and no section.  An exception of the metadata fetch is caught by
    the one handler of the request: the first tab stops at the fetch, and
    after the error message no other section is displayed. *)
Theorem C4_fetch_failures (env : Env) (stock_symbol : string) :
  (∀ stock_data fig company_info financial_metrics news_articles analysis_result,
     fetches env stock_symbol stock_data fig company_info financial_metrics
       news_articles analysis_result →
     (show_recommendation analysis_result).2 = Ok tt →
     (tab2 stock_symbol company_info).2 = Ok tt →
     (tab3 stock_symbol financial_metrics).2 = Ok tt →
     (tab4 env stock_symbol).2 = Ok tt →
     analysis env stock_symbol =
       (sections stock_symbol
          (tab1_calls stock_symbol stock_data fig company_info financial_metrics
             news_articles ++ (show_recommendation analysis_result).1)
          (tab2 stock_symbol company_info).1
          (tab3 stock_symbol financial_metrics).1
          (tab4 env stock_symbol).1,
        Ok tt) ∧
     (dict_truthy company_info = false →
      (tab2 stock_symbol company_info).1 = info_placeholder stock_symbol) ∧
     (dict_truthy financial_metrics = false →
      (tab3 stock_symbol financial_metrics).1 = metrics_placeholder stock_symbol) ∧
     (get_news_for_asset env 1 stock_symbol 5 = Ok [] →
      (tab4 env stock_symbol).1 = news_placeholder stock_symbol)) ∧
  (get_stock_data env stock_symbol "max" = Ok None →
   analyze env stock_symbol = not_found_display stock_symbol) ∧
  (∀ stock_data fig e,
     get_stock_data env stock_symbol "max" = Ok (Some stock_data) →
     plot_stock_chart env (display_data stock_data) = Ok fig →
     get_company_info env stock_symbol = Raise e →
     analyze env stock_symbol =
       Render [] (WSpinner ("Analyzing " +:+ stock_symbol +:+ "...")) ::
       Invoke (CGetStockData stock_symbol "max") ::
       Render [] (WTabs tab_labels) ::
       (enter (CTab 1) <$> tab1_until_info stock_symbol stock_data fig) ++
       handler e).
Proof.
  split; [|split].
  - intros data fig ci fm news res Hf Hrec H2 H3 H4.
    split; [by apply (analysis_run _ _ _ _ _ _ _ _ Hf)|].
    split; [|split]; intros H.
    + by rewrite tab2_empty.
    + by rewrite tab3_empty.
    + by rewrite tab4_empty.
  - apply analyze_not_found.
  - intros data fig e Hdata Hplot Hci.
    assert (tab1 env stock_symbol data (display_data data) =
            (tab1_until_info stock_symbol data fig, Raise e)) as H1.
    { unfold tab1, tab1_until_info.
      rewrite Hplot; cbn -[show_recommendation is_crypto display_data].
      rewrite Hci. reflexivity. }
    unfold analyze, analysis. rewrite Hdata, bind_call. cbv beta iota zeta.
    rewrite (bind_ok (emit _) _ tt) by reflexivity.
    rewrite (bind_raise (within (CTab 1) _) _ e)
      by (unfold within; cbn [snd]; by rewrite H1).
    unfold within. cbn [fst snd]. rewrite H1. cbn [fst snd]. reflexivity.
Qed.

Lemma C4_fetch_failures_witness :
  (tab2 "AAPL" None).1 = info_placeholder "AAPL" ∧
  (tab4 (Sample.env 3 None (Some (Sample.metrics_of VNone)) []) "AAPL").1 =
    news_placeholder "AAPL" ∧
  analyze Sample.env_no_price "AAPL" = not_found_display "AAPL" ∧
  analyze Sample.env_info_raises "AAPL" =
    Render [] (WSpinner ("Analyzing " +:+ "AAPL" +:+ "...")) ::
    Invoke (CGetStockData "AAPL" "max") ::
    Render [] (WTabs tab_labels) ::
    (enter (CTab 1) <$>
       tab1_until_info "AAPL" (Sample.series 3) {| fig_rows := Sample.series 3 |}) ++
    handler (HelperError "timed out").
Proof.
  destruct (C4_fetch_failures
              (Sample.env 3 None (Some (Sample.metrics_of VNone)) []) "AAPL")
    as (Ha & _ & _).
  destruct (Ha (Sample.series 3) {| fig_rows := Sample.series 3 |} None
              (Some (Sample.metrics_of VNone)) [] Sample.buy)
    as (_ & H2 & _ & H4).
  { repeat split. }
  { vm_compute. reflexivity. }
  { vm_compute. reflexivity. }
  { vm_compute. reflexivity. }
  { vm_compute. reflexivity. }
  destruct (C4_fetch_failures Sample.env_no_price "AAPL") as (_ & Hb & _).
  destruct (C4_fetch_failures Sample.env_info_raises "AAPL") as (_ & _ & Hc).
  split; [apply H2; reflexivity|].
  split; [apply H4; reflexivity|].
  split; [apply Hb; reflexivity|].
  apply Hc; reflexivity.
Defined.

(** C4, as stated, fails for the price fetch and for a fetch that raises.
    With no price series, no section is displayed, though the metadata, the
    metrics and the news are there.  When the metadata fetch raises, the
    first tab stops at the fetch and the tabs of the metadata, the metrics
    and the news stay empty. *)
Lemma C4_counterexample :
  get_company_info Sample.env_no_price "AAPL" = Ok (Some Sample.info) ∧
  get_financial_metrics Sample.env_no_price "AAPL" =
    Ok (Some (Sample.metrics_of VNone)) ∧
  get_news_for_asset Sample.env_no_price 1 "AAPL" 5 = Ok [Sample.article] ∧
  analyze Sample.env_no_price "AAPL" =
    [Render [] (WSpinner "Analyzing AAPL...");
     Invoke (CGetStockData "AAPL" "max");
     Render [] (WError (text "Could not retrieve data for AAPL. Please check the symbol and try again."))] ∧
  analyze Sample.env_info_raises "AAPL" =
    [Render [] (WSpinner "Analyzing AAPL...");
     Invoke (CGetStockData "AAPL" "max");
     Render [] (WTabs tab_labels);
     Render [CTab 1] (WSubheader "AAPL Price Chart");
     Invoke (CPlotStockChart (Sample.series 3));
     Render [CTab 1] (WPlotlyChart {| fig_rows := Sample.series 3 |});
     Render [CTab 1] (WSubheader "Gemini AI Stock Analysis");
     Invoke (CGetCompanyInfo "AAPL");
     Render [] (WError (text "An error occurred: timed out"));
     Render [] (WInfo (text "Please check if the stock symbol is correct. For IDX stocks, use the format 'IDX:SYMBOL' (e.g., IDX:ADRO)."))].
Proof. repeat split; vm_compute; reflexivity. Qed.

(** * Further properties of the script *)

(** ** The stored key *)

(** Lines 37-38 and 55-56.  After a run the session holds a key; it is the
    submitted input when that is not empty, and the key stored before
    otherwise: an empty submission does not clear a stored key.  No other
    entry of the session is touched. *)
Theorem session_key_kept (i : Inputs) :
  is_Some (session_of i !! "GEMINI_API_KEY") ∧
  stored_key (session_of i) =
    (if submitted i && str_truthy (api_key_input i) then api_key_input i
     else stored_key (session_state i)) ∧
  delete "GEMINI_API_KEY" (session_of i) = delete "GEMINI_API_KEY" (session_state i).
Proof.
  unfold session_of, save_key, init_session, stored_key.
  destruct (submitted i && str_truthy (api_key_input i));
    destruct (session_state i !! "GEMINI_API_KEY") as [k|] eqn:E;
    rewrite ?lookup_insert_eq, ?E, ?delete_insert_eq; cbn;
    repeat split; eauto.
Qed.

(** ** A page without a request *)

Lemma calls_app (t1 t2 : list Event) : calls (t1 ++ t2) = calls t1 ++ calls t2.
Proof. apply omap_app. Qed.

Lemma calls_enter (c : Container) (t : list Event) : calls (enter c <$> t) = calls t.
Proof.
  induction t as [|[p w|k] t IH]; [done|..];
    cbn; fold (calls (enter c <$> t)); fold (calls t); by rewrite IH.
Qed.

Lemma calls_invoke (c : Call) (t : list Event) : calls (Invoke c :: t) = c :: calls t.
Proof. reflexivity. Qed.

Lemma calls_render (p : list Container) (w : Widget) (t : list Event) :
  calls (Render p w :: t) = calls t.
Proof. reflexivity. Qed.

(** Line 75.  Unless the form is submitted with a symbol that is not empty,
    the page calls no helper, and what it displays does not depend on the
    helpers. *)
Theorem no_request_no_call (env env' : Env) (i : Inputs) :
  submit_button i && str_truthy (stock_symbol i) = false →
  calls (script env i).1 = [] ∧ script env' i = script env i.
Proof.
  intros H. unfold script. rewrite H. split; [|reflexivity].
  cbn [fst]. rewrite !calls_app. unfold api_key_section.
  by destruct (submitted i && str_truthy (api_key_input i)).
Qed.

Lemma no_request_no_call_witness :
  calls (script Sample.env_no_price (Sample.request "" "")).1 = [].
Proof.
  exact (proj1 (no_request_no_call Sample.env_no_price Sample.env_unknown
                  (Sample.request "" "") eq_refl)).
Defined.

(** ** Which helper is called, and when *)

Lemma quiet_ret {A} (a : A) : quiet (mret a : M A).
Proof. reflexivity. Qed.

Lemma quiet_emit (w : Widget) : quiet (emit w).
Proof. reflexivity. Qed.

Lemma quiet_lift {A} (r : result A) : quiet (lift r).
Proof. reflexivity. Qed.

Lemma quiet_bind {A B} (m : M A) (f : A → M B) :
  quiet m → (∀ a, quiet (f a)) → quiet (m ≫= f).
Proof.
  unfold quiet. intros Hm Hf. destruct m as [t [a|e]]; [|exact Hm].
  rewrite (bind_ok _ f a) by reflexivity. cbn [fst] in *.
  rewrite calls_app, Hm. apply Hf.
Qed.

Lemma quiet_within {A} (c : Container) (m : M A) : quiet m → quiet (within c m).
Proof. unfold quiet, within. cbn. by rewrite calls_enter. Qed.

Lemma quiet_if {A} (b : bool) (m1 m2 : M A) :
  quiet m1 → quiet m2 → quiet (if b then m1 else m2).
Proof. by destruct b. Qed.

Lemma quiet_if_dict {A} (d : option dict) (a : dict → M A) (b : M A) :
  (∀ d', quiet (a d')) → quiet b → quiet (if_dict d a b).
Proof. unfold if_dict. destruct d as [d|]; [|done]. by destruct (bool_decide _). Qed.

Lemma quiet_for_each {A} (l : list A) (body : A → M unit) :
  (∀ x, quiet (body x)) → quiet (for_each l body).
Proof.
  intros H. induction l as [|x l IH]; [done|].
  cbn [for_each]. apply quiet_bind; auto.
Qed.

Lemma quiet_for_enumerate {A} (i : Z) (l : list A) (body : Z → A → M unit) :
  (∀ i x, quiet (body i x)) → quiet (for_enumerate i l body).
Proof.
  intros H. revert i. induction l as [|x l IH]; intros i; [done|].
  cbn [for_enumerate]. apply quiet_bind; auto.
Qed.

Lemma quiet_write (args : list PyVal) : quiet (write args).
Proof.
  unfold quiet, write. destruct (write_args [] [] args) as [[|v shown] r];
    reflexivity.
Qed.

Lemma quiet_write2 (label : string) (v : PyVal) : quiet (write2 label v).
Proof. apply quiet_write. Qed.

Lemma quiet_metric (label : string) (v : PyVal) : quiet (metric label v).
Proof. unfold quiet, metric. by destruct (metric_value v) as [[]|e]. Qed.

Lemma quiet_emit_f (w : Text → Widget) (parts : list Part) : quiet (emit_f w parts).
Proof. unfold quiet, emit_f. by destruct (fstring parts). Qed.

Create HintDb quiet.
#[local] Hint Resolve quiet_ret quiet_emit quiet_lift quiet_bind quiet_within quiet_if
  quiet_if_dict quiet_for_each quiet_for_enumerate quiet_write quiet_write2
  quiet_metric quiet_emit_f : quiet.

Lemma quiet_show_recommendation (res : dict) : quiet (show_recommendation res).
Proof. unfold show_recommendation. cbv zeta. auto 30 with quiet. Qed.

Lemma quiet_tab2 (s : string) (ci : option dict) : quiet (tab2 s ci).
Proof. unfold tab2, crypto_info, company_information. auto 30 with quiet. Qed.

Lemma quiet_tab3 (s : string) (fm : option dict) : quiet (tab3 s fm).
Proof.
  unfold tab3, metrics, crypto_col1, crypto_col2, crypto_more, stock_col1,
    stock_col2, stock_more.
  cbv zeta. auto 40 with quiet.
Qed.

Lemma quiet_show_article (i : Z) (article : dict) : quiet (show_article i article).
Proof. unfold show_article. cbv zeta. auto 30 with quiet. Qed.

#[local] Hint Resolve quiet_show_article : quiet.

Lemma show_news_calls (env : Env) (news : list dict) :
  calls (show_news env news).1 = [CSummarize news].
Proof.
  unfold show_news.
  destruct (summarize_news_sentiment env news) as [sr|e]; [|reflexivity].
  rewrite bind_call. cbn [fst]. cbv zeta.
  rewrite calls_invoke. f_equal.
  match goal with |- calls (?m).1 = [] => change (quiet m) end.
  auto 30 with quiet.
Qed.

Lemma all_values_lookup (P : PyVal → bool) (d : dict) (k : string) (v : PyVal) :
  all_values P d = true → d !! k = Some v → P v = true.
Proof.
  unfold all_values. rewrite forallb_forall. intros H Hk.
  apply (H (k, v)). apply list_elem_of_In. by apply elem_of_map_to_list.
Qed.

(** Lines 138-182.  The metadata section raises only when a value it
    displays has no text, and then a [ValueError]: it does not raise on a
    mapping all of whose values have a text (the texts, the floats, [None],
    the lists of these, the integers of at most 4300 digits), and it does
    raise on a market capitalisation that has none. *)
Theorem metadata_section_raises (stock_symbol : string) (company_info : dict) :
  (all_values str_ok company_info = true →
   (tab2 stock_symbol (Some company_info)).2 = Ok tt) ∧
  (∀ v, company_info !! "marketCap" = Some v → str_ok v = false →
        (tab2 stock_symbol (Some company_info)).2 = Raise ValueError).
Proof.
  split.
  - intros H. apply tab2_plain. intros d k w [= <-] Hk.
    by apply (all_values_lookup _ _ _ _ H Hk).
  - intros v Hk Hv.
    assert (company_info ≠ ∅) as Hne by (intros ->; by rewrite lookup_empty in Hk).
    unfold tab2, crypto_info, company_information, if_dict.
    rewrite bool_decide_eq_false_2 by done.
    rewrite !write2_pair, !write1_pair.
    rewrite (dict_get_present _ "marketCap" _ v Hk), Hv.
    destruct (is_crypto stock_symbol).
    + destruct (str_ok (dict_get company_info "longName" _)); reflexivity.
    + destruct (str_ok (dict_get company_info "longName" _)); [|reflexivity].
      destruct (str_ok (dict_get company_info "sector" _)); [|reflexivity].
      destruct (str_ok (dict_get company_info "industry" _)); [|reflexivity].
      destruct (str_ok (dict_get company_info "country" _)); [|reflexivity].
      destruct (str_ok (dict_get company_info "exchange" _)); reflexivity.
Qed.

Lemma metadata_section_raises_witness :
  (tab2 "AAPL" (Some Sample.info)).2 = Ok tt ∧
  (tab2 "BTC-USD" (Some (<["marketCap" := VInt (10 ^ 4300)]> ∅))).2 =
    Raise ValueError.
Proof.
  split.
  - apply (proj1 (metadata_section_raises "AAPL" Sample.info)).
    vm_compute. reflexivity.
  - apply (proj2 (metadata_section_raises "BTC-USD"
                    (<["marketCap" := VInt (10 ^ 4300)]> ∅)) (VInt (10 ^ 4300))).
    + vm_compute. reflexivity.
    + vm_compute. reflexivity.
Defined.

Lemma tab4_calls (env : Env) (s : string) :
  calls (tab4 env s).1 =
    CGetNews s 5 ::
    match get_news_for_asset env 1 s 5 with
    | Ok (article :: news) => [CSummarize (article :: news)]
    | _ => []
    end.
Proof.
  unfold tab4.
  rewrite (bind_ok (emit _) _ tt) by reflexivity. cbn [fst].
  rewrite (bind_ok (emit _) _ tt) by reflexivity. cbn [fst].
  destruct (get_news_for_asset env 1 s 5) as [[|a news]|e];
    [reflexivity| |reflexivity].
  rewrite bind_call. cbn [fst list_truthy]. unfold emit. cbn [fst app].
  by rewrite !calls_render, calls_invoke, show_news_calls.
Qed.

(** Lines 254-309.  The news section fetches the news once, with at most
    five articles, and calls the summarizer once when the fetch returned
    articles; it calls it neither when the list is empty nor when the
    fetch raised: the summarizer never receives an empty list. *)
Theorem news_section_calls (env : Env) (stock_symbol : string) :
  calls (tab4 env stock_symbol).1 =
    CGetNews stock_symbol 5 ::
    match get_news_for_asset env 1 stock_symbol 5 with
    | Ok (article :: news) => [CSummarize (article :: news)]
    | _ => []
    end ∧
  CSummarize [] ∉ calls (tab4 env stock_symbol).1.
Proof.
  split; [apply tab4_calls|]. rewrite tab4_calls.
  destruct (get_news_for_asset env 1 stock_symbol 5) as [[|a news]|e];
    intros H;
    repeat (apply elem_of_cons in H as [H|H]; [discriminate|]);
    by apply elem_of_nil in H.
Qed.

(** Lines 81-309.  A request that goes through (no helper and no section
    raises) calls the helpers in this order: price series, chart (of the display window), metadata, metrics,
    news, recommendation engine (with the whole series and that news), news
    again, and the summarizer when the second fetch returned articles.  The
    news the engine reads and the news the fourth tab shows come from two
    fetches. *)
Theorem request_calls (env : Env) (stock_symbol : string) (stock_data : DataFrame)
    (fig : Figure) (company_info financial_metrics : option dict)
    (news_articles : list dict) (analysis_result : dict) :
  fetches env stock_symbol stock_data fig company_info financial_metrics
    news_articles analysis_result →
  (show_recommendation analysis_result).2 = Ok tt →
  (tab2 stock_symbol company_info).2 = Ok tt →
  (tab3 stock_symbol financial_metrics).2 = Ok tt →
  (tab4 env stock_symbol).2 = Ok tt →
  calls (analysis env stock_symbol).1 =
    [CGetStockData stock_symbol "max";
     CPlotStockChart (display_data stock_data);
     CGetCompanyInfo stock_symbol;
     CGetFinancialMetrics stock_symbol;
     CGetNews stock_symbol 5;
     CGenerateStockAnalysis stock_symbol stock_data company_info
       financial_metrics news_articles;
     CGetNews stock_symbol 5] ++
    match get_news_for_asset env 1 stock_symbol 5 with
    | Ok (article :: news) => [CSummarize (article :: news)]
    | _ => []
    end.
Proof.
  intros Hf Hrec H2 H3 H4.
  rewrite (analysis_run _ _ _ _ _ _ _ _ Hf Hrec H2 H3 H4). cbn [fst].
  unfold sections.
  rewrite calls_invoke, calls_render, !calls_app, !calls_enter, calls_app.
  rewrite quiet_show_recommendation, quiet_tab2, quiet_tab3, tab4_calls.
  reflexivity.
Qed.

Lemma request_calls_witness :
  calls (analysis (Sample.env 3 (Some Sample.info) (Some (Sample.metrics_of VNone))
                     [Sample.article]) "AAPL").1 =
    [CGetStockData "AAPL" "max";
     CPlotStockChart (display_data (Sample.series 3));
     CGetCompanyInfo "AAPL";
     CGetFinancialMetrics "AAPL";
     CGetNews "AAPL" 5;
     CGenerateStockAnalysis "AAPL" (Sample.series 3) (Some Sample.info)
       (Some (Sample.metrics_of VNone)) [Sample.article];
     CGetNews "AAPL" 5; CSummarize [Sample.article]].
Proof.
  refine (request_calls
    (Sample.env 3 (Some Sample.info) (Some (Sample.metrics_of VNone)) [Sample.article])
    "AAPL" (Sample.series 3) {| fig_rows := Sample.series 3 |} (Some Sample.info)
    (Some (Sample.metrics_of VNone)) [Sample.article] Sample.buy _ _ _ _ _).
  - repeat split.
  - vm_compute. reflexivity.
  - vm_compute. reflexivity.
  - vm_compute. reflexivity.
  - vm_compute. reflexivity.
Defined.

(** ** The handler of the request *)

Lemma elem_of_bind {A B} (m : M A) (f : A → M B) (e : Event) :
  e ∈ (m ≫= f).1 → e ∈ m.1 ∨ ∃ a, e ∈ (f a).1.
Proof.
  destruct m as [t [a|x]]; [|by left].
  rewrite (bind_ok _ f a) by reflexivity. cbn [fst]. rewrite elem_of_app.
  intros [H|H]; eauto.
Qed.

Lemma elem_of_within {A} (c : Container) (m : M A) (e : Event) :
  e ∈ (within c m).1 →
  match e with Render p _ => p ≠ [] | Invoke _ => True end.
Proof.
  unfold within. cbn [fst]. intros (e' & -> & _)%list_elem_of_fmap.
  by destruct e'.
Qed.

Lemma error_banner_inj (x y : Exn) : error_banner x = error_banner y → x = y.
Proof.
  destruct x, y; intros H; vm_compute in H; try discriminate; try reflexivity.
  by simplify_eq.
Qed.

Lemma error_banner_not_found (x : Exn) (s : string) :
  error_banner x ≠
  Render [] (WError (text ("Could not retrieve data for " +:+ s
                           +:+ ". Please check the symbol and try again."))).
Proof. destruct x; intros H; vm_compute in H; discriminate. Qed.

(** What the body of the [try] displays is never the message of the
    handler. *)
Lemma analysis_no_banner (env : Env) (s : string) (x : Exn) :
  error_banner x ∉ (analysis env s).1.
Proof.
  intros H. unfold analysis in H.
  destruct (get_stock_data env s "max") as [[data|]|e].
  - rewrite bind_call in H. cbv beta iota zeta in H. cbn [fst] in H.
    apply elem_of_cons in H as [H|H]; [discriminate|].
    apply elem_of_bind in H as [H|[[] H]].
    { apply elem_of_cons in H as [H|H]; [destruct x; discriminate|].
      by apply elem_of_nil in H. }
    apply elem_of_bind in H as [H|[[ci fm] H]];
      [by apply elem_of_within in H|].
    apply elem_of_bind in H as [H|[[] H]];
      [by apply elem_of_within in H|].
    apply elem_of_bind in H as [H|[[] H]];
      by apply elem_of_within in H.
  - rewrite bind_call in H. cbn [fst] in H.
    apply elem_of_cons in H as [H|H]; [discriminate|].
    apply elem_of_cons in H as [H|H]; [by apply error_banner_not_found in H|].
    by apply elem_of_nil in H.
  - rewrite bind_call_raise in H. cbn [fst] in H.
    apply elem_of_cons in H as [H|H]; [discriminate|].
    by apply elem_of_nil in H.
Qed.



(** ** Listings *)

Lemma emit_f_ok (w : Text → Widget) (parts : list Part) (t : Text) :
  fstring parts = Ok t → emit_f w parts = ([Render [] (w t)], Ok tt).
Proof. unfold emit_f. by intros ->. Qed.

Lemma py_str_ok (v : PyVal) : str_ok v = true → py_str v = Ok (str_piece v).
Proof. unfold py_str. by intros ->. Qed.

Ltac fstring_ok :=
  unfold fstring; cbn [fstring_pieces]; rewrite ?py_str_ok by assumption;
  reflexivity.

Lemma for_each_bullets (factors : list PyVal) :
  forallb str_ok factors = true →
  for_each factors (fun factor => emit_f WMarkdown [PLit "- "; PVal factor]) =
    (bullet <$> factors, Ok tt).
Proof.
  induction factors as [|x l IH]; [reflexivity|].
  intros [Hx Hl]%andb_true_iff. cbn [for_each].
  rewrite (emit_f_ok _ _ (fstr [Lit "- "; str_piece x])) by fstring_ok.
  rewrite (bind_ok (_, Ok tt) _ tt) by reflexivity. by rewrite IH.
Qed.

(** The recommendation, when its action and its summary have a text: the
    head, and what the risk factors and the detailed analysis display. *)
Lemma show_recommendation_head (res : dict) :
  str_ok (dict_get res "recommendation" (VStr "NEUTRAL")) = true →
  str_ok (dict_get res "summary" (VStr "No summary available")) = true →
  show_recommendation res =
    match py_iter (dict_get res "risk_factors" (VList [])) with
    | Ok factors =>
        let rest :=
          for_each factors (fun factor =>
            emit_f WMarkdown [PLit "- "; PVal factor]);;
          emit (WExpander (text "Detailed Analysis") false);;
          within (CExpander (text "Detailed Analysis"))
            (write [dict_get res "detailed_analysis"
                      (VStr "No detailed analysis available")]) in
        (recommendation_head res ++ rest.1, rest.2)
    | Raise e => (recommendation_head res, Raise e)
    end.
Proof.
  intros Hr Hs.
  unfold show_recommendation, recommendation_head, recommendation_banner.
  cbv zeta.
  rewrite (write1_pair (dict_get res "summary" (VStr "No summary available"))), Hs.
  set (r := dict_get res "recommendation" (VStr "NEUTRAL")) in *.
  set (rest := fun factors : list PyVal => (_ ;; _ : M unit)).
  assert ((if py_eq_str r "BUY"
           then emit_f WSuccess [PLit "## Recommendation: "; PVal r; PLit " 📈"]
           else if py_eq_str r "SELL"
           then emit_f WError [PLit "## Recommendation: "; PVal r; PLit " 📉"]
           else emit_f WInfo [PLit "## Recommendation: "; PVal r; PLit " ⚖️"]) =
          ([Render []
              (if py_eq_str r "BUY"
               then WSuccess (fstr [Lit "## Recommendation: "; str_piece r; Lit " 📈"])
               else if py_eq_str r "SELL"
               then WError (fstr [Lit "## Recommendation: "; str_piece r; Lit " 📉"])
               else WInfo (fstr [Lit "## Recommendation: "; str_piece r; Lit " ⚖️"]))],
           Ok tt)) as ->.
  { destruct (py_eq_str r "BUY"), (py_eq_str r "SELL");
      apply emit_f_ok; fstring_ok. }
  rewrite (bind_ok (_, Ok tt) _ tt) by reflexivity. cbn [fst snd].
  rewrite (bind_ok (emit _) _ tt) by reflexivity. cbn [fst snd].
  rewrite (bind_ok (_, Ok tt) _ tt) by reflexivity. cbn [fst snd].
  rewrite (bind_ok (emit _) _ tt) by reflexivity. cbn [fst snd].
  destruct (py_iter (dict_get res "risk_factors" (VList []))) as [factors|e].
  - rewrite (bind_ok (lift (Ok factors)) _ factors) by reflexivity.
    reflexivity.
  - reflexivity.
Qed.

(** Lines 113-136.  When the action and the summary have a text, the
    recommendation is followed by one bullet for each risk factor, in their
    order (for a text, one bullet for each of its characters), and by the
    detailed analysis.  When [risk_factors] is there and is [None], a
    Boolean or a number, the display raises [TypeError] after the heading
    of the risk factors: neither a bullet nor the detailed analysis is
    displayed.  The default, no risk factor, is used only when the key is
    absent. *)
Theorem risk_factors_listing (analysis_result : dict) :
  let recommendation := dict_get analysis_result "recommendation" (VStr "NEUTRAL") in
  let summary := dict_get analysis_result "summary" (VStr "No summary available") in
  let risk_factors := dict_get analysis_result "risk_factors" (VList []) in
  let detail :=
    dict_get analysis_result "detailed_analysis"
      (VStr "No detailed analysis available") in
  str_ok recommendation = true →
  str_ok summary = true →
  (∀ factors,
     py_iter risk_factors = Ok factors →
     forallb str_ok factors = true →
     str_ok detail = true →
     show_recommendation analysis_result =
       (recommendation_head analysis_result ++ (bullet <$> factors) ++
        detailed_analysis analysis_result, Ok tt)) ∧
  (∀ v,
     analysis_result !! "risk_factors" = Some v →
     v = VNone ∨ (∃ b, v = VBool b) ∨ (∃ z, v = VInt z) ∨ (∃ f, v = VFloat f) →
     show_recommendation analysis_result =
       (recommendation_head analysis_result, Raise TypeError)) ∧
  (analysis_result !! "risk_factors" = None →
   str_ok detail = true →
   show_recommendation analysis_result =
     (recommendation_head analysis_result ++ detailed_analysis analysis_result,
      Ok tt)).
Proof.
  cbv zeta. intros Hr Hs.
  pose proof (show_recommendation_head _ Hr Hs) as Hrun. cbv zeta in Hrun.
  assert (∀ factors,
    forallb str_ok factors = true →
    str_ok (dict_get analysis_result "detailed_analysis"
              (VStr "No detailed analysis available")) = true →
    (for_each factors (fun factor => emit_f WMarkdown [PLit "- "; PVal factor]);;
     emit (WExpander (text "Detailed Analysis") false);;
     within (CExpander (text "Detailed Analysis"))
       (write [dict_get analysis_result "detailed_analysis"
                 (VStr "No detailed analysis available")]) : M unit) =
    ((bullet <$> factors) ++ detailed_analysis analysis_result, Ok tt)) as Hrest.
  { intros factors Hf Hd. rewrite for_each_bullets by done.
    rewrite (bind_ok (_, Ok tt) _ tt) by reflexivity. cbn [fst snd].
    rewrite (bind_ok (emit _) _ tt) by reflexivity. cbn [fst snd].
    rewrite write1_pair, Hd. reflexivity. }
  split; [|split].
  - intros factors Hi Hf Hd. rewrite Hrun, Hi, (Hrest _ Hf Hd). reflexivity.
  - intros v Hv Hkind. rewrite Hrun, (dict_get_present _ _ _ v Hv).
    by destruct Hkind as [->|[[b ->]|[[z ->]|[f ->]]]].
  - intros Hv Hd. rewrite Hrun, (dict_get_absent _ _ _ Hv).
    cbn [py_iter]. by rewrite (Hrest [] eq_refl Hd).
Qed.

Lemma risk_factors_listing_witness :
  show_recommendation Sample.buy =
    (recommendation_head Sample.buy ++ (bullet <$> [VStr "Valuation"]) ++
     detailed_analysis Sample.buy, Ok tt) ∧
  show_recommendation (<["risk_factors" := VNone]> Sample.buy) =
    (recommendation_head (<["risk_factors" := VNone]> Sample.buy),
     Raise TypeError).
Proof.
  split.
  - refine (proj1 (risk_factors_listing Sample.buy _ _) [VStr "Valuation"] _ _ _);
      vm_compute; reflexivity.
  - refine (proj1 (proj2 (risk_factors_listing (<["risk_factors" := VNone]> Sample.buy)
                           _ _)) VNone _ _).
    + vm_compute. reflexivity.
    + vm_compute. reflexivity.
    + vm_compute. reflexivity.
    + left. reflexivity.
Defined.

Lemma show_article_events (i : Z) (article : dict) :
  all_values str_ok article = true →
  show_article i article = (article_events i article, Ok tt).
Proof.
  intros H.
  assert (∀ k v, str_ok v = true → str_ok (dict_get article k v) = true) as Hd.
  { intros k v Hv. apply dict_get_str_ok; [|done].
    intros k' w Hk. by apply (all_values_lookup _ _ _ _ H Hk). }
  unfold show_article, article_events, article_label. cbv zeta.
  pose proof (Hd "title" (VStr "No title") eq_refl) as Ht.
  pose proof (Hd "source" (VStr "Unknown") eq_refl) as Hs.
  pose proof (Hd "date" (VStr "Unknown date") eq_refl) as Hdt.
  pose proof (Hd "url" (VStr "#") eq_refl) as Hu.
  pose proof (Hd "summary" (VStr "No summary available") eq_refl) as Hsm.
  set (title := dict_get article "title" _) in *.
  set (source := dict_get article "source" _) in *.
  set (date := dict_get article "date" _) in *.
  set (url := dict_get article "url" _) in *.
  set (summary := dict_get article "summary" _) in *.
  assert (fstring [PLit (dec (i + 1)); PLit ". "; PVal title; PLit " (";
                   PVal source; PLit ")"] =
          Ok (fstr [Lit (dec (i + 1)); Lit ". "; str_piece title; Lit " (";
                    str_piece source; Lit ")"])) as -> by fstring_ok.
  rewrite (bind_ok (lift (Ok _)) _ _) by reflexivity. cbn [fst snd lift].
  rewrite (bind_ok (emit _) _ tt) by reflexivity. cbn [fst snd].
  rewrite (emit_f_ok WMarkdown [PLit "**Date:** "; PVal date]
             (fstr [Lit "**Date:** "; str_piece date])) by fstring_ok.
  rewrite (emit_f_ok WMarkdown [PLit "**Source:** "; PVal source]
             (fstr [Lit "**Source:** "; str_piece source])) by fstring_ok.
  rewrite (emit_f_ok WMarkdown [PLit "[Read full article]("; PVal url; PLit ")"]
             (fstr [Lit "[Read full article]("; str_piece url; Lit ")"]))
    by fstring_ok.
  rewrite write1_pair, Hsm. reflexivity.
Qed.

Lemma for_enumerate_articles (i : Z) (news : list dict) :
  forallb (all_values str_ok) news = true →
  for_enumerate i news show_article =
    (mjoin (imap (fun k a => article_events (i + Z.of_nat k) a) news), Ok tt).
Proof.
  revert i. induction news as [|a news IH]; intros i; [reflexivity|].
  intros [Ha Hn]%andb_true_iff.
  cbn [for_enumerate]. rewrite show_article_events by done.
  rewrite (bind_ok (_, Ok tt) _ tt) by reflexivity. rewrite IH by done.
  cbn [fst snd]. rewrite imap_cons. cbn [mjoin list_join].
  rewrite Z.add_0_r. do 3 f_equal. apply imap_ext. intros k x _.
  cbn. f_equal. lia.
Qed.

(** Lines 295-306.  When the values of the articles have a text, the
    articles are listed in the order of the list, each as an expander
    numbered from 1 with four elements inside (date, source, summary,
    link), and the listing does not raise. *)
Theorem news_listing (news_articles : list dict) :
  forallb (all_values str_ok) news_articles = true →
  for_enumerate 0 news_articles show_article =
    (mjoin (imap (fun k a => article_events (Z.of_nat k) a) news_articles), Ok tt) ∧
  length (for_enumerate 0 news_articles show_article).1 =
    (5 * length news_articles)%nat.
Proof.
  intros H. rewrite for_enumerate_articles by done.
  split; [reflexivity|]. cbn [fst]. clear H.
  generalize 0. induction news_articles as [|a news IH]; intros i; [reflexivity|].
  rewrite imap_cons. cbn [mjoin list_join]. rewrite length_app.
  cbn [length article_events].
  rewrite (imap_ext _ (fun k a => article_events (i + 1 + Z.of_nat k) a)).
  - rewrite IH. lia.
  - intros k x _. cbn. f_equal. lia.
Qed.

Lemma news_listing_witness :
  length (for_enumerate 0 [Sample.article; Sample.article] show_article).1 = 10%nat.
Proof.
  apply (proj2 (news_listing [Sample.article; Sample.article]
                  ltac:(vm_compute; reflexivity))).
Defined.

(** Lines 263-306.  When the result of the summarizer has no score, no
    trend and no key topics, and its summary and the values of the
    articles have a text, the section displays the sentiment as
    "Neutral (+0.00)" in grey, no key topic, and then the articles; it does
    not raise. *)
Theorem sentiment_defaults (env : Env) (news_articles : list dict)
    (sentiment_results : dict) :
  summarize_news_sentiment env news_articles = Ok sentiment_results →
  sentiment_results !! "sentiment_score" = None →
  sentiment_results !! "trend" = None →
  sentiment_results !! "key_topics" = None →
  str_ok (dict_get sentiment_results "summary"
            (VStr "No news analysis available")) = true →
  forallb (all_values str_ok) news_articles = true →
  show_news env news_articles =
    (Invoke (CSummarize news_articles) ::
     Render [] (WMarkdown (text "### Market Sentiment")) ::
     Render [] (WHtml (text "<h4 style='color: grey;'>Sentiment: Neutral (+0.00)</h4>")) ::
     Render [] (WWrite [dict_get sentiment_results "summary"
                          (VStr "No news analysis available")]) ::
     Render [] (WMarkdown (text "### Recent News Articles")) ::
     mjoin (imap (fun k a => article_events (Z.of_nat k) a) news_articles),
     Ok tt).
Proof.
  intros Hs H1 H2 H3 Hsum Hnews. unfold show_news. rewrite Hs, bind_call. cbv zeta.
  rewrite (dict_get_absent _ "sentiment_score"), (dict_get_absent _ "trend"),
    (dict_get_absent _ "key_topics") by done.
  rewrite for_enumerate_articles by done.
  rewrite write1_pair, Hsum.
  set (articles := mjoin _).
  set (summary := dict_get _ _ _).
  clearbody articles summary. vm_compute. reflexivity.
Qed.

Lemma sentiment_defaults_witness :
  show_news Sample.env_bare_sentiment [Sample.article] =
    (Invoke (CSummarize [Sample.article]) ::
     Render [] (WMarkdown (text "### Market Sentiment")) ::
     Render [] (WHtml (text "<h4 style='color: grey;'>Sentiment: Neutral (+0.00)</h4>")) ::
     Render [] (WWrite [dict_get (<["summary" := VStr "Quiet week."]> ∅) "summary"
                          (VStr "No news analysis available")]) ::
     Render [] (WMarkdown (text "### Recent News Articles")) ::
     mjoin (imap (fun k a => article_events (Z.of_nat k) a) [Sample.article]),
     Ok tt).
Proof.
  apply (sentiment_defaults Sample.env_bare_sentiment [Sample.article] _
           eq_refl eq_refl eq_refl eq_refl); vm_compute; reflexivity.
Defined.
(** ** The display window of a dated series *)

Lemma ascending_series (n : nat) : ascending (Sample.series n).
Proof.
  unfold ascending, Sample.series. generalize 0%nat.
  induction n as [|n IH]; intros s; [constructor|].
  cbn [seq fmap list_fmap]. constructor; [apply IH|].
  apply Forall_fmap, Forall_seq. intros j Hj. cbn. lia.
Qed.

(** Lines 85-88.  When the rows of the series are in the order of their
    dates, so are the rows of the display window, and every row that is
    left out is dated no later than every row that is displayed. *)
Theorem display_window_latest (stock_data : DataFrame) :
  ascending stock_data →
  ascending (display_data stock_data) ∧
  ∀ a b, a ∈ take (length stock_data - 252) stock_data →
         b ∈ display_data stock_data → bar_date a ≤ bar_date b.
Proof.
  intros H. unfold display_data.
  destruct (252 <? length stock_data)%nat eqn:E.
  - pose proof (tail_suffix 252 stock_data) as Hs.
    unfold ascending in *. rewrite Hs in H.
    apply StronglySorted_app in H as (Hle & _ & Ht). split; [exact Ht|].
    intros a b Ha Hb. by apply Hle.
  - apply Nat.ltb_ge in E. split; [exact H|].
    replace (length stock_data - 252)%nat with 0%nat by lia.
    intros a b Ha. by apply elem_of_nil in Ha.
Qed.

Lemma display_window_latest_witness :
  ascending (display_data (Sample.series 300)).
Proof.
  exact (proj1 (display_window_latest (Sample.series 300) (ascending_series 300))).
Defined.

(** ** The asset kind of a composed symbol *)

#[local] Transparent String.append dict_get pct_if_truthy pct_if_not_none.

Lemma list_ascii_of_append (a b : string) :
  String.list_ascii_of_string (a +:+ b) =
  String.list_ascii_of_string a ++ String.list_ascii_of_string b.
Proof.
  induction a as [|c a IH]; [reflexivity|].
  change (String c a +:+ b) with (String c (a +:+ b)).
  cbn [String.list_ascii_of_string app]. by rewrite IH.
Qed.

Lemma contains_hyphen_upper (s : string) :
  contains_hyphen (upper s) ↔ contains_hyphen s.
Proof.
  unfold contains_hyphen. induction s as [|c s IH]; [reflexivity|].
  cbn [upper String.list_ascii_of_string]. rewrite !elem_of_cons, IH.
  split; intros [H|H]; auto; left.
  - symmetry. by apply to_upper_hyphen.
  - symmetry. apply to_upper_hyphen. done.
Qed.

(** Line 99.  The asset kind does not depend on the case of the symbol, and
    a symbol made of two parts is a cryptocurrency exactly when one of the
    parts is: the prefix "IDX:" does not change the kind of a symbol. *)
Theorem is_crypto_append (a b : string) :
  is_crypto (a +:+ b) = is_crypto a || is_crypto b ∧
  is_crypto (upper a) = is_crypto a ∧
  is_crypto ("IDX:" +:+ a) = is_crypto a.
Proof.
  assert (∀ x y, is_crypto (x +:+ y) = is_crypto x || is_crypto y) as Happ.
  { intros x y. unfold is_crypto. rewrite !str_contains_hyphen.
    rewrite <- bool_decide_or. apply bool_decide_ext.
    unfold contains_hyphen. by rewrite list_ascii_of_append, elem_of_app. }
  split; [apply Happ|]. split.
  - unfold is_crypto. rewrite !str_contains_hyphen.
    apply bool_decide_ext, contains_hyphen_upper.
  - by rewrite Happ.
Qed.

(** ** Values of the percentage metrics *)

Lemma pct_if_truthy_float (d : dict) (k : string) :
  (∀ v, d !! k = Some v → none_or_float v) →
  ∃ t, pct_if_truthy d k = Ok (VStr t).
Proof.
  intros H. unfold pct_if_truthy, dict_get_none, dict_get.
  destruct (d !! k) as [v|]; [|by eexists].
  specialize (H v eq_refl). destruct v as [| | |f| |]; try done;
    cbn -[SFmul canon float_format_2f String.append].
  - by eexists.
  - destruct (negb (float_is_zero f)); eexists; reflexivity.
Qed.

Lemma pct_if_not_none_float (d : dict) (k : string) :
  (∀ v, d !! k = Some v → none_or_float v) →
  ∃ t, pct_if_not_none d k = Ok (VStr t).
Proof.
  intros H. unfold pct_if_not_none, dict_get_none, dict_get.
  destruct (d !! k) as [v|]; [|by eexists].
  specialize (H v eq_refl). destruct v as [| | |f| |]; try done;
    cbn -[SFmul canon float_format_2f String.append]; eexists; reflexivity.
Qed.

Lemma pct_if_truthy_text (d : dict) (k t : string) :
  d !! k = Some (VStr t) → t ≠ "" → pct_if_truthy d k = Raise ValueError.
Proof.
  intros H Ht. unfold pct_if_truthy, dict_get_none, dict_get. rewrite H.
  cbn -[String.append String.eqb]. by destruct (String.eqb_spec t "").
Qed.

#[local] Opaque String.append dict_get pct_if_truthy pct_if_not_none.

Lemma plain_metric (v : PyVal) : plain v = true → metric_value v = Ok tt.
Proof.
  unfold plain. intros [H _]%andb_true_iff.
  by destruct (metric_value v) as [[]|e].
Qed.

Lemma plain_str (v : PyVal) : plain v = true → str_ok v = true.
Proof. unfold plain. by intros [_ H]%andb_true_iff. Qed.

Lemma plain_get (d : dict) (k : string) (v : PyVal) :
  all_values plain d = true → plain v = true → plain (dict_get d k v) = true.
Proof.
  intros Hd Hv. destruct (d !! k) as [w|] eqn:E.
  - rewrite (dict_get_present _ _ _ w E). by apply (all_values_lookup _ _ _ _ Hd E).
  - by rewrite (dict_get_absent _ _ _ E).
Qed.

(** Lines 189-250.  When every value of the mapping is one that
    [st.metric] and [st.write] display (a text, a float, a Boolean, [None],
    an integer of at most 4300 digits), and every percentage metric of the
    mapping is absent, [None] or a [float], the metrics section does not
    raise. *)
Theorem metrics_floats_never_raise (stock_symbol : string) (financial_metrics : dict) :
  all_values plain financial_metrics = true →
  (∀ k v, k ∈ pct_keys stock_symbol → financial_metrics !! k = Some v →
          none_or_float v) →
  (tab3 stock_symbol (Some financial_metrics)).2 = Ok tt.
Proof.
  intros Hall H. unfold tab3, if_dict.
  destruct (bool_decide (financial_metrics = ∅)); [reflexivity|].
  assert (∀ k d, plain d = true →
                 plain (dict_get financial_metrics k d) = true) as Hp
    by (intros; by apply plain_get).
  rewrite metrics_paths. unfold pct_keys, truthy_guarded, none_guarded in H.
  destruct (is_crypto stock_symbol).
  - destruct (pct_if_truthy_float financial_metrics "regularMarketChangePercent")
      as [c Ec]; [intros v; apply H; set_solver|].
    unfold crypto_metrics, crypto_col1, crypto_col2, crypto_more, metric.
    rewrite !write2_pair, Ec.
    rewrite !(plain_metric (dict_get _ _ _)) by (repeat apply Hp; reflexivity).
    rewrite !(plain_str (dict_get _ _ _)) by (repeat apply Hp; reflexivity).
    reflexivity.
  - destruct (pct_if_truthy_float financial_metrics "dividendYield")
      as [d Ed]; [intros v; apply H; set_solver|].
    destruct (pct_if_truthy_float financial_metrics "returnOnEquity")
      as [r Er]; [intros v; apply H; set_solver|].
    destruct (pct_if_truthy_float financial_metrics "profitMargins")
      as [p Ep]; [intros v; apply H; set_solver|].
    destruct (pct_if_not_none_float financial_metrics "revenueGrowth")
      as [g Eg]; [intros v; apply H; set_solver|].
    destruct (pct_if_not_none_float financial_metrics "grossMargins")
      as [gm Egm]; [intros v; apply H; set_solver|].
    destruct (pct_if_not_none_float financial_metrics "operatingMargins")
      as [om Eom]; [intros v; apply H; set_solver|].
    unfold stock_metrics, stock_col1, stock_col2, stock_more, metric.
    rewrite !write2_pair, Ed, Er, Ep, Eg, Egm, Eom.
    rewrite !(plain_metric (dict_get _ _ _)) by (repeat apply Hp; reflexivity).
    rewrite !(plain_str (dict_get _ _ _)) by (repeat apply Hp; reflexivity).
    reflexivity.
Qed.

Lemma metrics_floats_never_raise_witness :
  (tab3 "AAPL" (Some Sample.float_metrics)).2 = Ok tt.
Proof.
  apply (metrics_floats_never_raise "AAPL" Sample.float_metrics).
  - vm_compute. reflexivity.
  - intros k v Hk Hv. vm_compute in Hk.
    repeat (apply elem_of_cons in Hk as [->|Hk];
            [vm_compute in Hv; by simplify_eq|]).
    by apply elem_of_nil in Hk.
Defined.

Lemma tab3_dividend_text (s : string) (fm : dict) (t : string) :
  is_crypto s = false →
  fm !! "dividendYield" = Some (VStr t) →
  t ≠ "" →
  metric_value (dict_get fm "currentPrice" (VStr "N/A")) = Ok tt →
  metric_value (dict_get fm "trailingPE" (VStr "N/A")) = Ok tt →
  tab3 s (Some fm) =
    ([Render [] (WSubheader (s +:+ " Financial Metrics"));
      Render [] (WColumns 2);
      in_col 1 "Current Price" (dict_get fm "currentPrice" (VStr "N/A"));
      in_col 1 "P/E Ratio" (dict_get fm "trailingPE" (VStr "N/A"))],
     Raise ValueError).
Proof.
  intros Hc Hk Ht Hprice Hpe.
  assert (fm ≠ ∅) as Hne by (intros ->; by rewrite lookup_empty in Hk).
  unfold tab3, if_dict. rewrite bool_decide_eq_false_2 by done.
  rewrite metrics_paths, Hc.
  unfold stock_metrics, stock_col1, metric.
  rewrite (pct_if_truthy_text _ _ t), Hprice, Hpe by done. reflexivity.
Qed.

(** A request whose metrics section raises stops there. *)
Lemma analysis_tab3_raise (env : Env) (s : string) (data : DataFrame) (fig : Figure)
    (ci fm : option dict) (news : list dict) (res : dict) (e : Exn) :
  fetches env s data fig ci fm news res →
  (show_recommendation res).2 = Ok tt →
  (tab2 s ci).2 = Ok tt →
  (tab3 s fm).2 = Raise e →
  analysis env s =
    (Invoke (CGetStockData s "max") :: Render [] (WTabs tab_labels) ::
     (enter (CTab 1) <$> tab1_calls s data fig ci fm news ++
                          (show_recommendation res).1) ++
     (enter (CTab 2) <$> (tab2 s ci).1) ++ (enter (CTab 3) <$> (tab3 s fm).1),
     Raise e).
Proof.
  intros Hf Hrec H2 H3. pose proof (tab1_run _ _ _ _ _ _ _ _ Hf) as H1.
  destruct Hf as (Hdata & _). rewrite Hrec in H1.
  unfold analysis. rewrite Hdata, bind_call. cbv beta iota zeta.
  rewrite (bind_ok (emit _) _ tt) by reflexivity.
  rewrite (bind_ok (within (CTab 1) _) _ (ci, fm))
    by (unfold within; cbn [snd]; by rewrite H1).
  rewrite (bind_ok (within (CTab 2) _) _ tt) by exact H2.
  rewrite (bind_raise (within (CTab 3) _) _ e) by exact H3.
  unfold within. cbn [fst snd]. rewrite H1. reflexivity.
Qed.

(** Lines 195-204 and 313-315.  For an equity whose current price and P/E
    ratio are displayed, a text that is not empty under [dividendYield]
    (such as "N/A") makes the metrics section raise [ValueError]: the
    current price and the P/E ratio are displayed, the dividend yield and
    what follows are not.  The request, when it has come that far, ends in
    the handler: the news section is not displayed and the news is not
    fetched for it. *)
Theorem metrics_text_raises (stock_symbol : string) (financial_metrics : dict)
    (t : string) :
  is_crypto stock_symbol = false →
  financial_metrics !! "dividendYield" = Some (VStr t) →
  t ≠ "" →
  metric_value (dict_get financial_metrics "currentPrice" (VStr "N/A")) = Ok tt →
  metric_value (dict_get financial_metrics "trailingPE" (VStr "N/A")) = Ok tt →
  tab3 stock_symbol (Some financial_metrics) =
    ([Render [] (WSubheader (stock_symbol +:+ " Financial Metrics"));
      Render [] (WColumns 2);
      in_col 1 "Current Price" (dict_get financial_metrics "currentPrice" (VStr "N/A"));
      in_col 1 "P/E Ratio" (dict_get financial_metrics "trailingPE" (VStr "N/A"))],
     Raise ValueError) ∧
  ∀ env stock_data fig company_info news_articles analysis_result,
    fetches env stock_symbol stock_data fig company_info (Some financial_metrics)
      news_articles analysis_result →
    (show_recommendation analysis_result).2 = Ok tt →
    (tab2 stock_symbol company_info).2 = Ok tt →
    analyze env stock_symbol =
      Render [] (WSpinner ("Analyzing " +:+ stock_symbol +:+ "...")) ::
      (Invoke (CGetStockData stock_symbol "max") :: Render [] (WTabs tab_labels) ::
       (enter (CTab 1) <$>
          tab1_calls stock_symbol stock_data fig company_info
            (Some financial_metrics) news_articles ++
          (show_recommendation analysis_result).1) ++
       (enter (CTab 2) <$> (tab2 stock_symbol company_info).1) ++
       (enter (CTab 3) <$> (tab3 stock_symbol (Some financial_metrics)).1)) ++
      handler ValueError.
Proof.
  intros Hc Hk Ht Hprice Hpe.
  pose proof (tab3_dividend_text _ _ _ Hc Hk Ht Hprice Hpe) as H3.
  split; [exact H3|].
  intros env data fig ci news res Hf Hrec H2.
  unfold analyze.
  rewrite (analysis_tab3_raise _ _ _ _ _ _ _ _ ValueError Hf Hrec H2)
    by (by rewrite H3).
  reflexivity.
Qed.

Lemma metrics_text_raises_witness :
  (tab3 "AAPL" (Some (Sample.metrics_of (VStr "N/A")))).2 = Raise ValueError.
Proof.
  pose proof (proj1 (metrics_text_raises "AAPL" (Sample.metrics_of (VStr "N/A")) "N/A"
                       eq_refl eq_refl ltac:(discriminate)
                       ltac:(vm_compute; reflexivity)
                       ltac:(vm_compute; reflexivity))) as H.
  by rewrite H.
Defined.
